(** * bukuserver/forms.py: form schemas and the API tag-processing step

  A shallow embedding of [bukuserver/forms.py] together with the part of
  the WTForms machinery it drives ([Form.process], [Form.validate],
  [FieldList], [DataRequired], [InputRequired]), followed by the
  properties of the tag validator, of the declared form schemas and of
  the two [process_data] methods.

  Conventions.
  - A Python [str] is a [string]; its characters are the code points
    below 256.  JSON-like values are [Py.value]; non-integer numbers are
    not represented.
  - A call either returns or raises: [Py.outcome], with stdpp's monadic
    notation [x ← m; k].
  - The mapping handed to [process_data] is a [gmap string Py.value].
  - A form class is the list of its field declarations in field order; a
    form object ([Forms.Self]) carries its class, its bound fields and
    the attributes the methods assign.
  - [buku.DELIM] and [buku.parse_tags] are parameters of the embedding;
    [Buku] gives the instances the spec describes. *)

From Stdlib Require Import String Ascii ZArith Lia.
From stdpp Require Import base option list gmap strings.

Open Scope string_scope.
Open Scope list_scope.

(** ** Python values and the string operations the module uses *)

Module Py.

#[warnings="-register-all"] Inductive value : Type :=
| PyNone
| PyBool (b : bool)
| PyInt (z : Z)
| PyStr (s : string)
| PyList (items : list value)
| PyDict (items : list (string * value)).

Inductive exn : Type :=
| TypeError
| AttributeError.

(** The result of a call: a returned value or a raised exception. *)
Inductive outcome (A : Type) : Type :=
| Return (a : A)
| Raise (e : exn).
Arguments Return {A} a.
Arguments Raise {A} e.

#[global] Instance outcome_ret : MRet outcome := fun _ a => Return a.

#[global] Instance outcome_bind : MBind outcome := fun _ _ k m =>
  match m with
  | Return a => k a
  | Raise e => Raise e
  end.

(** [bool(v)] *)
Definition truthy (v : value) : bool :=
  match v with
  | PyNone => false
  | PyBool b => b
  | PyInt z => negb (z =? 0)%Z
  | PyStr s => negb (String.eqb s "")
  | PyList items => negb (Nat.eqb (length items) 0)
  | PyDict items => negb (Nat.eqb (length items) 0)
  end.

(** [isinstance(v, str)] and [isinstance(v, list)] *)
Definition is_str (v : value) : bool :=
  match v with PyStr _ => true | _ => false end.

Definition is_list (v : value) : bool :=
  match v with PyList _ => true | _ => false end.

(** [v is None] *)
Definition is_none (v : value) : bool :=
  match v with PyNone => true | _ => false end.

(** [d.get(key)] on the top-level mapping: the entry, or [None]. *)
Definition get (d : gmap string value) (key : string) : value :=
  default PyNone (d !! key).

(** [sub in s] on strings: [sub] occurs in [s] as a substring. *)
Fixpoint str_in (sub s : string) : bool :=
  String.prefix sub s ||
  match s with
  | EmptyString => false
  | String _ s' => str_in sub s'
  end.

(** [c.isspace()] for a code point below 256. *)
Definition isspace (c : ascii) : bool :=
  let n := nat_of_ascii c in
  (Nat.leb 9 n && Nat.leb n 13) || (Nat.leb 28 n && Nat.leb n 32)
  || Nat.eqb n 133 || Nat.eqb n 160.

Fixpoint lstrip (s : string) : string :=
  match s with
  | EmptyString => EmptyString
  | String c s' => if isspace c then lstrip s' else s
  end.

(** [s.strip()] *)
Definition strip (s : string) : string :=
  String.rev (lstrip (String.rev (lstrip s))).

(** The one-character strings of [s], as iterating a [str] yields them. *)
Fixpoint chars (s : string) : list string :=
  match s with
  | EmptyString => []
  | String c s' => String c EmptyString :: chars s'
  end.

(** [iter(v)]: the items a [for] loop over [v] visits. *)
Definition iter (v : value) : outcome (list value) :=
  match v with
  | PyList items => Return items
  | PyStr s => Return (PyStr <$> chars s)
  | PyDict items => Return ((fun kv => PyStr (fst kv)) <$> items)
  | PyNone | PyBool _ | PyInt _ => Raise TypeError
  end.

(** The items of an iterable as strings; [str.join] raises [TypeError]
    on the first item that is not a [str]. *)
Fixpoint strings_of (items : list value) : outcome (list string) :=
  match items with
  | [] => Return []
  | PyStr s :: rest => ss ← strings_of rest; Return (s :: ss)
  | _ :: _ => Raise TypeError
  end.

(** [sep.join(v)] *)
Definition join (sep : string) (v : value) : outcome string :=
  items ← iter v;
  ss ← strings_of items;
  Return (String.concat sep ss).

End Py.


(** ** The WTForms machinery driven by the module

    Only the path [process_data] takes is modelled: [Form.process] is
    called with [data=...] and without form data, so every field takes its
    value from the mapping (or its default) and [raw_data] is [None].
    Messages are the untranslated ones.  The CSRF token field that
    [FlaskForm] adds to the browser forms is not a declared field and is
    left out; the API forms switch it off. *)

Module WTForms.

(** The state of a bound, non-list field. *)
Record Field : Type := mkField {
  data : Py.value;
  raw_data : option (list string);
  process_errors : list string;
  errors : list string
}.

(** What a validator may raise. *)
Inductive raised : Type :=
| ValidationError (msg : string)
| StopValidation (msg : string).

(** A validator is called on the field; it may change the field's error
    list and may raise.  The [form] argument, which no validator of this
    module reads, is left out. *)
Definition validator : Type := Field -> Field * option raised.

Definition set_errors (field : Field) (errs : list string) : Field :=
  mkField (data field) (raw_data field) (process_errors field) errs.

Definition required_message : string := "This field is required.".

(** The test of [DataRequired]: [data] is truthy and, if it is a string,
    not blank. *)
Definition has_data (v : Py.value) : bool :=
  Py.truthy v
  && (negb (Py.is_str v)
      || match v with
         | Py.PyStr s => Py.truthy (Py.PyStr (Py.strip s))
         | _ => false
         end).

(** [DataRequired.__call__] *)
Definition DataRequired : validator := fun field =>
  if has_data (data field) then (field, None)
  else (set_errors field [], Some (StopValidation required_message)).

(** [InputRequired.__call__]: passes when [field.raw_data] is non-empty and
    its first item is truthy. *)
Definition InputRequired : validator := fun field =>
  match raw_data field with
  | Some (first :: _) =>
      if Py.truthy (Py.PyStr first) then (field, None)
      else (set_errors field [], Some (StopValidation required_message))
  | Some [] | None =>
      (set_errors field [], Some (StopValidation required_message))
  end.

Inductive FieldType : Type :=
| StringField
| TextAreaField
| HiddenField
| BooleanField.

(** An unbound field: the arguments a field class was called with.
    [label] is the positional label, [name] the [name=] override of the
    HTML field name.  The help texts ([description=]) are not kept. *)
Record UnboundField : Type := mkUnbound {
  ftype : FieldType;
  label : option string;
  name : option string;
  validators : list validator;
  filters : list (Py.value -> Py.value);
  default_ : Py.value
}.

(** A class attribute of a form: a plain field, or a [FieldList] of an
    unbound field with its [min_entries]. *)
Inductive Declared : Type :=
| Plain (u : UnboundField)
| FieldList (u : UnboundField) (min_entries : nat).

Inductive BoundField : Type :=
| Bound (u : UnboundField) (field : Field)
| BoundList (u : UnboundField) (entries : list Field)
    (list_errors : list (list string)).

(** [Field.process_data]: [BooleanField] stores [bool(value)], the other
    field types store the value as it is. *)
Definition Field_process_data (t : FieldType) (value : Py.value) : Py.value :=
  match t with
  | BooleanField => Py.PyBool (Py.truthy value)
  | StringField | TextAreaField | HiddenField => value
  end.

(** [Field.process(formdata=None, data)]: [None] for [data] stands for
    [unset_value], which selects the declared default. *)
Definition Field_process (u : UnboundField) (value : option Py.value) : Field :=
  let object_data := default (default_ u) value in
  let stored := Field_process_data (ftype u) object_data in
  mkField (foldl (fun d f => f d) stored (filters u)) None [] [].

(** [FieldList.process(formdata=None, data)]: unset or falsy data is
    replaced by the default [()]; one entry is added per item and the list
    is padded with default entries up to [min_entries]. *)
Definition FieldList_process (u : UnboundField) (min_entries : nat)
    (value : option Py.value) : Py.outcome (list Field) :=
  items ← match value with
          | Some v => if Py.truthy v then Py.iter v else Py.Return []
          | None => Py.Return []
          end;
  let entries := (fun item => Field_process u (Some item)) <$> items in
  Py.Return (entries ++
             replicate (min_entries - length entries) (Field_process u None)).

(** [Field._run_validation_chain]: returns the field and whether
    validation was stopped. *)
Fixpoint run_validation_chain (field : Field) (chain : list validator)
    : Field * bool :=
  match chain with
  | [] => (field, false)
  | v :: rest =>
      match v field with
      | (field, None) => run_validation_chain field rest
      | (field, Some (ValidationError msg)) =>
          run_validation_chain (set_errors field (errors field ++ [msg])) rest
      | (field, Some (StopValidation msg)) =>
          (if Py.truthy (Py.PyStr msg)
           then set_errors field (errors field ++ [msg]) else field, true)
      end
  end.

(** [Field.validate]: the field after validation; it is valid when its
    error list is empty. *)
Definition Field_validate (u : UnboundField) (field : Field) : Field :=
  fst (run_validation_chain (set_errors field (process_errors field))
         (validators u)).

(** [FieldList.validate]: every entry is validated and the entries' error
    lists are collected; when all are empty the list's errors are []. *)
Definition FieldList_validate (u : UnboundField) (entries : list Field)
    : list Field * list (list string) :=
  let entries := Field_validate u <$> entries in
  let errs := errors <$> entries in
  (entries, if forallb (fun e => Nat.eqb (length e) 0) errs then [] else errs).

Definition FormClass : Type := list (string * Declared).

(** A class that inherits from [parent]: the attributes it declares
    replace the inherited ones of the same name, and fields are ordered by
    creation, so the inherited ones come first. *)
Definition subclass (parent own : FormClass) : FormClass :=
  filter (fun d => d.1 ∉ own.*1) parent ++ own.

(** [Form.process(data=data)] *)
Fixpoint process (cls : FormClass) (kwargs : gmap string Py.value)
    : Py.outcome (list (string * BoundField)) :=
  match cls with
  | [] => Py.Return []
  | (name, Plain u) :: rest =>
      let field := Field_process u (kwargs !! name) in
      fields ← process rest kwargs;
      Py.Return ((name, Bound u field) :: fields)
  | (name, FieldList u min_entries) :: rest =>
      entries ← FieldList_process u min_entries (kwargs !! name);
      fields ← process rest kwargs;
      Py.Return ((name, BoundList u entries []) :: fields)
  end.

Definition validate_bound (b : BoundField) : BoundField :=
  match b with
  | Bound u field => Bound u (Field_validate u field)
  | BoundList u entries _ =>
      let '(entries, errs) := FieldList_validate u entries in
      BoundList u entries errs
  end.

Definition has_errors (b : BoundField) : bool :=
  match b with
  | Bound _ field => negb (Nat.eqb (length (errors field)) 0)
  | BoundList _ _ errs => negb (Nat.eqb (length errs) 0)
  end.

(** [Form.validate]: every field is validated; the form is valid when no
    field has errors. *)
Definition validate (fields : list (string * BoundField))
    : list (string * BoundField) * bool :=
  let fields := prod_map id validate_bound <$> fields in
  (fields, forallb (fun f => negb (has_errors f.2)) fields).

(** A value of the [Form.errors] mapping, or of a hand-built error
    description: a message, a field's messages, or a list field's
    per-entry messages. *)
Inductive ErrorValue : Type :=
| Message (msg : string)
| Messages (msgs : list string)
| EntryMessages (msgs : list (list string)).

(** [Form.errors]: the fields with errors, in field order. *)
Definition form_errors (fields : list (string * BoundField))
    : list (string * ErrorValue) :=
  omap (fun f : string * BoundField =>
          if has_errors f.2 then
            Some (f.1, match f.2 with
                       | Bound _ field => Messages (errors field)
                       | BoundList _ _ errs => EntryMessages errs
                       end)
          else None) fields.

(** The bound field stored under [name]. *)
Definition bound_field (fields : list (string * BoundField)) (name : string)
    : option BoundField :=
  (fun found : nat * (string * BoundField) => found.2.2)
    <$> list_find (fun f => f.1 = name) fields.

(** [field.data]; a list field's data is the list of its entries' data. *)
Definition bound_data (b : BoundField) : Py.value :=
  match b with
  | Bound _ field => data field
  | BoundList _ entries _ => Py.PyList (data <$> entries)
  end.

(** [len(field.entries)] of a list field. *)
Definition entry_count (b : BoundField) : nat :=
  match b with
  | Bound _ _ => 0
  | BoundList _ entries _ => length entries
  end.

(** The attribute a form class declares under [name]. *)
Definition declared (cls : FormClass) (name : string) : option Declared :=
  (fun found : nat * (string * Declared) => found.2.2)
    <$> list_find (fun d => d.1 = name) cls.

End WTForms.

(** ** The collaborators imported by the module *)

Module Response.

(** Modelled from the spec: the response kinds of [bukuserver.response],
    declared outside this module; the input-validation error is the only
    member the forms use. *)
Inductive t : Type :=
| INPUT_NOT_VALID.

End Response.

Module Buku.

(** Modelled from the spec: the tag delimiter constant [buku.DELIM],
    declared outside this module: the single reserved character that
    separates tags in storage, the comma of the spec's examples and of the
    docstrings below. *)
Definition DELIM : string := ",".

(** Modelled from the spec: the tag-parsing helper [buku.parse_tags],
    declared outside this module.  The spec describes the normalized
    string as the validated tags joined with the reserved delimiter into a
    single string, so the helper returns its keywords joined by the
    delimiter; a single already joined keyword is returned as it is. *)
Definition parse_tags (keywords : list string) : string :=
  String.concat DELIM keywords.

End Buku.

(** ** bukuserver/forms.py *)

Module Forms.

Import WTForms.

(** The double quote, for the messages that contain one. *)
Definition dquote : string := String "034"%char EmptyString.

Section Forms.

(** [from buku import DELIM, parse_tags] *)
Variable DELIM : string.
Variable parse_tags : list string -> string.

Definition validate_tag : validator := fun field =>
  match data field with
  | Py.PyStr s =>
      if Py.str_in DELIM s then
        (field,
         Some (ValidationError
                 ("Tag must not contain delimiter "
                  +:+ dquote +:+ DELIM +:+ dquote +:+ ".")))
      else (field, None)
  | _ => (field, Some (ValidationError "Tag must be a string."))
  end.

Definition SearchBookmarksForm : FormClass :=
  [ ("keywords",
     FieldList
       (mkUnbound StringField (Some "Keywords") None [] [] Py.PyNone) 1);
    ("all_keywords",
     Plain (mkUnbound BooleanField (Some "Match all keywords") None [] []
              (Py.PyBool true)));
    ("markers",
     Plain (mkUnbound BooleanField (Some "With markers") None [] []
              (Py.PyBool true)));
    ("deep",
     Plain (mkUnbound BooleanField (Some "Deep search") None [] [] Py.PyNone));
    ("regex",
     Plain (mkUnbound BooleanField (Some "Regex") None [] [] Py.PyNone)) ].

Definition HomeForm : FormClass :=
  subclass SearchBookmarksForm
    [ ("keyword",
       Plain (mkUnbound StringField (Some "Keyword") None [] [] Py.PyNone)) ].

(** The filter [bool]. *)
Definition bool_filter (v : Py.value) : Py.value := Py.PyBool (Py.truthy v).

Definition BookmarkForm : FormClass :=
  [ ("url",
     Plain (mkUnbound StringField (Some "Url") (Some "link") [InputRequired] []
              Py.PyNone));
    ("title", Plain (mkUnbound StringField None None [] [] Py.PyNone));
    ("tags", Plain (mkUnbound StringField None None [] [] Py.PyNone));
    ("description", Plain (mkUnbound TextAreaField None None [] [] Py.PyNone));
    ("fetch",
     Plain (mkUnbound HiddenField None None [] [bool_filter] Py.PyNone)) ].

Definition ApiTagForm : FormClass :=
  [ ("tags",
     FieldList (mkUnbound StringField None None [DataRequired; validate_tag] []
                  Py.PyNone) 1) ].

Definition ApiBookmarkCreateForm : FormClass :=
  subclass ApiTagForm
    [ ("url",
       Plain (mkUnbound StringField None None [DataRequired] [] Py.PyNone));
      ("title", Plain (mkUnbound StringField None None [] [] Py.PyNone));
      ("description", Plain (mkUnbound StringField None None [] [] Py.PyNone));
      ("tags",
       FieldList
         (mkUnbound StringField None None [validate_tag] [] Py.PyNone) 0);
      ("fetch",
       Plain (mkUnbound HiddenField None None [] [bool_filter]
                (Py.PyBool true))) ].

Definition ApiBookmarkEditForm : FormClass :=
  subclass ApiBookmarkCreateForm
    [ ("url", Plain (mkUnbound StringField None None [] [] Py.PyNone)) ].

Definition ApiBookmarkRangeEditForm : FormClass :=
  subclass ApiBookmarkEditForm
    [ ("del_tags",
       Plain (mkUnbound BooleanField
                (Some "Delete tags list from existing tags") None [] []
                (Py.PyBool false))) ].

(** A form object: its class, its bound fields, and the attributes
    [tags_str] (of [ApiTagForm]) and [tags_in] (of
    [ApiBookmarkRangeEditForm]), both [None] on the class and so on an
    object until a method assigns them. *)
Record Self : Type := mkSelf {
  cls : FormClass;
  fields : list (string * BoundField);
  tags_str : option string;
  tags_in : option string
}.

(** A form object on which [process_data] has not run.  The method binds
    every field anew and reads none of them first, so the fields the
    constructor bound from the request are left out here. *)
Definition new (cls : FormClass) : Self := mkSelf cls [] None None.

(** The [{'errors': ...}] mapping returned with an error. *)
Record ErrorData : Type := mkErrorData {
  errors_ : list (string * ErrorValue)
}.

(** The returned pair. *)
Definition Result : Type := option Response.t * option ErrorData.

(** [ApiTagForm.process_data], inherited by every API form. *)
Definition ApiTagForm_process_data (self : Self) (data : gmap string Py.value)
    : Py.outcome (Self * Result) :=
  let tags := Py.get data "tags" in
  if Py.truthy tags && negb (Py.is_list tags) then
    Py.Return (self, (Some Response.INPUT_NOT_VALID,
                      Some (mkErrorData
                              [("tags", Message "List of tags expected.")])))
  else
    bound ← process (cls self) data;
    let '(bound, valid) := validate bound in
    let self := mkSelf (cls self) bound (tags_str self) (tags_in self) in
    if negb valid then
      Py.Return (self, (Some Response.INPUT_NOT_VALID,
                        Some (mkErrorData (form_errors bound))))
    else
      new_tags_str ← (if Py.is_none tags then Py.Return None
                      else joined ← Py.join DELIM tags;
                           Py.Return (Some (parse_tags [joined])));
      Py.Return (mkSelf (cls self) (fields self) new_tags_str (tags_in self),
                 (None, None)).

(** [self.<name>.data] *)
Definition field_data (self : Self) (name : string) : Py.outcome Py.value :=
  match bound_field (fields self) name with
  | Some b => Py.Return (bound_data b)
  | None => Py.Raise Py.AttributeError
  end.

(** [ApiBookmarkRangeEditForm.process_data] *)
Definition ApiBookmarkRangeEditForm_process_data (self : Self)
    (data : gmap string Py.value) : Py.outcome (Self * Result) :=
  '(self, (error_response, data)) ← ApiTagForm_process_data self data;
  self ← match tags_str self with
         | Some s =>
             del_tags ← field_data self "del_tags";
             let sign := if Py.truthy del_tags then "-" else "+" in
             Py.Return (mkSelf (cls self) (fields self) (tags_str self)
                          (Some (sign +:+ s)))
         | None => Py.Return self
         end;
  Py.Return (self, (error_response, data)).

(** The unbound entry field of [tags] on [ApiTagForm] and on
    [ApiBookmarkCreateForm] and its subclasses. *)
Definition required_tag_entry : UnboundField :=
  mkUnbound StringField None None [DataRequired; validate_tag] [] Py.PyNone.

Definition tag_entry : UnboundField :=
  mkUnbound StringField None None [validate_tag] [] Py.PyNone.

(** An item of a [tags] list that [validate_tag] accepts. *)
Definition valid_tag (item : Py.value) : bool :=
  match item with
  | Py.PyStr s => negb (Py.str_in DELIM s)
  | _ => false
  end.

(** An entry without errors after validation. *)
Definition entry_ok (u : UnboundField) (entry : Field) : bool :=
  Nat.eqb (length (errors (Field_validate u entry))) 0.

(** What a caller sees of a call: the returned pair with the object's
    [tags_str] and [tags_in] afterwards, or the exception. *)
Definition observe (o : Py.outcome (Self * Result))
    : Py.outcome (option string * option string * Result) :=
  '(self, r) ← o; Py.Return (tags_str self, tags_in self, r).

(** The type-mismatch error of [ApiTagForm.process_data]. *)
Definition type_mismatch : Result :=
  (Some Response.INPUT_NOT_VALID,
   Some (mkErrorData [("tags", Message "List of tags expected.")])).

(** The messages validation leaves on a tag entry bound from [item]: on
    the create and edit forms [validate_tag] runs alone; on [ApiTagForm]
    [DataRequired] runs first and stops the chain when it fails. *)
Definition tag_messages (item : Py.value) : list string :=
  match item with
  | Py.PyStr s =>
      if Py.str_in DELIM s then
        ["Tag must not contain delimiter "
         +:+ dquote +:+ DELIM +:+ dquote +:+ "."]
      else []
  | _ => ["Tag must be a string."]
  end.

Definition required_tag_messages (item : Py.value) : list string :=
  if has_data item then tag_messages item else [required_message].

(** The [tags] part of [Form.errors], given the entries' messages: absent
    when no entry has a message. *)
Definition tags_errors (messages : list (list string))
    : list (string * ErrorValue) :=
  if forallb (fun e => Nat.eqb (length e) 0) messages then []
  else [("tags", EntryMessages messages)].

(** The [url] part of [Form.errors] on the create form. *)
Definition url_errors (url : Py.value) : list (string * ErrorValue) :=
  if has_data url then [] else [("url", Messages [required_message])].

End Forms.

End Forms.

(** * Properties *)

Import WTForms Forms.

(** ** Strings *)

Section StringFacts.

(** [+:+] does not unfold under [simpl]; its two equations. *)
Lemma append_cons (c : ascii) (s t : string) :
  String c s +:+ t = String c (s +:+ t).
Proof. reflexivity. Qed.

Lemma append_nil (t : string) : "" +:+ t = t.
Proof. reflexivity. Qed.

(** [String.prefix] and [Py.str_in] decide "starts with" and "contains". *)
Lemma prefix_spec (sub s : string) :
  String.prefix sub s = true <-> exists rest, s = sub +:+ rest.
Proof.
  revert s. induction sub as [|c sub IH]; intros s.
  - destruct s; simpl; split; eauto.
  - destruct s as [|d s]; cbn [String.prefix].
    + split; [discriminate|]. intros [rest H]. discriminate.
    + setoid_rewrite append_cons.
      destruct (ascii_dec c d) as [->|Hne].
      * rewrite IH. split; intros [rest H]; exists rest; congruence.
      * split; [discriminate|]. intros [rest H]. congruence.
Qed.

Lemma str_in_spec (sub s : string) :
  Py.str_in sub s = true <-> exists before after, s = before +:+ sub +:+ after.
Proof.
  induction s as [|c s IH]; cbn [Py.str_in].
  - rewrite orb_false_r, prefix_spec. split.
    + intros [rest H]. exists "", rest. exact H.
    + intros [before [after H]]. destruct before; [eauto|discriminate].
  - rewrite orb_true_iff, prefix_spec, IH. split.
    + intros [[rest H]|[before [after H]]].
      * exists "", rest. exact H.
      * exists (String c before), after. rewrite append_cons. congruence.
    + intros [before [after H]]. destruct before as [|d before].
      * left. eauto.
      * right. exists before, after. rewrite append_cons in H. congruence.
Qed.

Lemma strings_of_strs (l : list string) :
  Py.strings_of (Py.PyStr <$> l) = Py.Return l.
Proof.
  induction l as [|s l IH]; [reflexivity|]. cbn. rewrite IH. reflexivity.
Qed.

End StringFacts.

(** ** Binding and validating fields *)

Section FormFacts.

(** [d.get(key)] on a missing and on a present entry. *)
Lemma get_unset (data : gmap string Py.value) key :
  data !! key = None -> Py.get data key = Py.PyNone.
Proof. unfold Py.get. intros ->. reflexivity. Qed.

Lemma get_entry (data : gmap string Py.value) key v :
  data !! key = Some v -> Py.get data key = v.
Proof. unfold Py.get. intros ->. reflexivity. Qed.

(** Looking a name up in the bound fields and in the class. *)
Lemma bound_field_cons (name n : string) (b : BoundField) fields :
  bound_field ((n, b) :: fields) name =
    if decide (n = name) then Some b else bound_field fields name.
Proof.
  unfold bound_field. cbn [list_find]. cbn [fst].
  destruct (decide (n = name)); [reflexivity|].
  destruct (list_find _ fields) as [[i f]|]; reflexivity.
Qed.

Lemma declared_cons (name n : string) (d : Declared) cls :
  declared ((n, d) :: cls) name =
    if decide (n = name) then Some d else declared cls name.
Proof.
  unfold declared. cbn [list_find]. cbn [fst].
  destruct (decide (n = name)); [reflexivity|].
  destruct (list_find _ cls) as [[i f]|]; reflexivity.
Qed.

(** A plain field is bound to its processed value. *)
Lemma process_plain cls kwargs bound name u :
  process cls kwargs = Py.Return bound ->
  declared cls name = Some (Plain u) ->
  bound_field bound name = Some (Bound u (Field_process u (kwargs !! name))).
Proof.
  revert bound. induction cls as [|[n d] cls IH]; intros bound Hp Hd.
  - discriminate.
  - rewrite declared_cons in Hd. cbn [process] in Hp.
    destruct d as [u'|u' m].
    + destruct (process cls kwargs) as [rest|e]; [|discriminate].
      injection Hp as <-. rewrite bound_field_cons.
      destruct (decide (n = name)) as [->|Hne].
      * congruence.
      * eauto.
    + destruct (FieldList_process u' m (kwargs !! n)) as [entries|e];
        [|discriminate].
      cbn in Hp.
      destruct (process cls kwargs) as [rest|e]; [|discriminate].
      injection Hp as <-. rewrite bound_field_cons.
      destruct (decide (n = name)) as [->|Hne]; [discriminate|eauto].
Qed.

(** A list field is bound to its processed entries. *)
Lemma process_list cls kwargs bound name u m :
  process cls kwargs = Py.Return bound ->
  declared cls name = Some (FieldList u m) ->
  exists entries,
    FieldList_process u m (kwargs !! name) = Py.Return entries /\
    bound_field bound name = Some (BoundList u entries []).
Proof.
  revert bound. induction cls as [|[n d] cls IH]; intros bound Hp Hd.
  - discriminate.
  - rewrite declared_cons in Hd. cbn [process] in Hp.
    destruct d as [u'|u' m'].
    + destruct (process cls kwargs) as [rest|e]; [|discriminate].
      injection Hp as <-. setoid_rewrite bound_field_cons.
      destruct (decide (n = name)) as [->|Hne]; [discriminate|eauto].
    + destruct (FieldList_process u' m' (kwargs !! n)) as [entries|e] eqn:Hfl;
        [|discriminate].
      cbn in Hp.
      destruct (process cls kwargs) as [rest|e]; [|discriminate].
      injection Hp as <-. setoid_rewrite bound_field_cons.
      destruct (decide (n = name)) as [->|Hne].
      * injection Hd as <- <-. eauto.
      * eauto.
Qed.

(** Validation keeps the fields in place and validates each of them. *)
Lemma validate_bound_field fields name :
  bound_field (validate fields).1 name
  = validate_bound <$> bound_field fields name.
Proof.
  unfold validate. cbn [fst].
  induction fields as [|[n b] fields IH]; [reflexivity|].
  rewrite fmap_cons. unfold prod_map at 1. cbn [fst snd id].
  rewrite !bound_field_cons.
  destruct (decide (n = name)); [reflexivity|exact IH].
Qed.

(** The form is valid when no validated field has errors. *)
Lemma validate_valid fields :
  (validate fields).2
  = forallb (fun f => negb (has_errors (validate_bound f.2))) fields.
Proof.
  unfold validate. cbn [snd].
  induction fields as [|[n b] fields IH]; [reflexivity|].
  rewrite fmap_cons. cbn [forallb]. rewrite IH. reflexivity.
Qed.

(** *** List fields *)

(** The entries a list field binds: default entries only when nothing or
    a falsy value is given, one entry per item of a list, and never fewer
    than [min_entries]. *)
Lemma FieldList_process_unset u m :
  FieldList_process u m None = Py.Return (replicate m (Field_process u None)).
Proof. unfold FieldList_process. cbn. rewrite Nat.sub_0_r. reflexivity. Qed.

Lemma FieldList_process_list u m items :
  FieldList_process u m (Some (Py.PyList items))
  = Py.Return (((fun item => Field_process u (Some item)) <$> items)
               ++ replicate (m - length items) (Field_process u None)).
Proof.
  unfold FieldList_process. destruct items as [|item items]; cbn.
  - rewrite Nat.sub_0_r. reflexivity.
  - rewrite length_fmap. reflexivity.
Qed.

Lemma FieldList_process_falsy u m v :
  Py.truthy v = false ->
  FieldList_process u m (Some v)
  = Py.Return (replicate m (Field_process u None)).
Proof.
  intros Hv. unfold FieldList_process. rewrite Hv. cbn.
  rewrite Nat.sub_0_r. reflexivity.
Qed.

Lemma FieldList_process_min_entries u m value entries :
  FieldList_process u m value = Py.Return entries -> m <= length entries.
Proof.
  unfold FieldList_process.
  destruct (match value with Some v => _ | None => _ end) as [items|e];
    [|discriminate].
  cbn [mbind Py.outcome_bind]. intros [= <-].
  rewrite length_app, length_replicate. lia.
Qed.

(** A list field has no errors exactly when none of its entries has. *)
Lemma FieldList_has_errors u entries :
  negb (has_errors (validate_bound (BoundList u entries [])))
  = forallb (entry_ok u) entries.
Proof.
  cbn. set (errs := errors <$> (Field_validate u <$> entries)).
  assert (forallb (fun e => Nat.eqb (length e) 0) errs
          = forallb (entry_ok u) entries) as Hall.
  { unfold errs. induction entries as [|e entries IH]; [reflexivity|].
    cbn. rewrite IH. reflexivity. }
  rewrite <- Hall. destruct (forallb _ errs) eqn:Hf; [reflexivity|].
  destruct errs; [discriminate|reflexivity].
Qed.

(** *** Required values *)

(** A plain field without validators has no errors. *)
Lemma plain_no_errors u value :
  validators u = [] ->
  has_errors (validate_bound (Bound u (Field_process u value))) = false.
Proof. intros Hv. cbn. unfold Field_validate. rewrite Hv. reflexivity. Qed.

(** [DataRequired] alone on a field: the required message, or nothing. *)
Lemma required_errors u value :
  validators u = [DataRequired] ->
  errors (Field_validate u (Field_process u value))
  = if has_data (data (Field_process u value)) then [] else [required_message].
Proof.
  intros Hv. unfold Field_validate. rewrite Hv. cbn [run_validation_chain].
  unfold DataRequired. cbn.
  destruct (has_data _); reflexivity.
Qed.

Lemma required_has_errors u value :
  validators u = [DataRequired] ->
  has_errors (validate_bound (Bound u (Field_process u value)))
  = negb (has_data (data (Field_process u value))).
Proof.
  intros Hv. cbn [has_errors validate_bound].
  rewrite required_errors by exact Hv.
  destruct (has_data _); reflexivity.
Qed.

(** [InputRequired] alone on a field whose raw input is missing or
    empty. *)
Lemma input_required_errors u field :
  validators u = [InputRequired] ->
  raw_data field = None \/ raw_data field = Some []
  \/ (exists rest, raw_data field = Some ("" :: rest)) ->
  errors (Field_validate u field) = [required_message].
Proof.
  intros Hv Hraw. unfold Field_validate. rewrite Hv.
  cbn [run_validation_chain]. unfold InputRequired.
  cbn [raw_data set_errors].
  destruct Hraw as [-> | [-> | (rest & ->)]]; reflexivity.
Qed.

(** *** Error descriptions *)

(** No message of [Form.errors] is a bare string. *)
Lemma form_errors_not_message fields name msg :
  (name, Message msg) ∉ form_errors fields.
Proof.
  unfold form_errors. intros Hin. apply list_elem_of_omap in Hin.
  destruct Hin as ([n b] & _ & Hf). cbn [fst snd] in Hf.
  destruct (has_errors b); [|discriminate]. destruct b; discriminate.
Qed.

(** So a validation failure is never the type-mismatch error. *)
Lemma form_errors_not_type_mismatch fields :
  (Some Response.INPUT_NOT_VALID, Some (mkErrorData (form_errors fields)))
  <> type_mismatch.
Proof.
  unfold type_mismatch. intros [= H].
  apply (form_errors_not_message fields "tags" "List of tags expected.").
  rewrite H. apply list_elem_of_here.
Qed.

(** What [observe] shows of a returning call. *)
Lemma observe_return o ts ti r :
  observe o = Py.Return (ts, ti, r) <->
  exists self',
    o = Py.Return (self', r) /\ tags_str self' = ts /\ tags_in self' = ti.
Proof.
  unfold observe. destruct o as [[self' r']|e]; cbn.
  - split.
    + intros [= <- <- <-]. eauto.
    + intros (self'' & [= <- <-] & <- & <-). reflexivity.
  - split; [discriminate|]. intros (self' & H & _). discriminate.
Qed.

End FormFacts.

(** Reads a plain field of a bound form off the class declaration. *)
Ltac bound_plain Hp := erewrite process_plain by (exact Hp || reflexivity).

(** ** The API forms *)

Section ApiForms.

Variable DELIM : string.
Variable parse_tags : list string -> string.

#[local] Abbreviation process_data :=
  (ApiTagForm_process_data DELIM parse_tags).
#[local] Abbreviation range_process_data :=
  (ApiBookmarkRangeEditForm_process_data DELIM parse_tags).
#[local] Abbreviation guard tags := (Py.truthy tags && negb (Py.is_list tags)).
#[local] Abbreviation new_tags_str tags :=
  (if Py.is_none tags then Py.Return None
   else joined ← Py.join DELIM tags; Py.Return (Some (parse_tags [joined]))).

(** *** The tag validator *)

(** C5: the tag validator raises a validation error exactly when the
    value is not a string or contains the delimiter as a substring; it
    raises nothing else, and it leaves the field as it was. *)
Theorem validate_tag_rejects_iff (field : Field) :
  ((validate_tag DELIM field).2 <> None <->
   Py.is_str (data field) = false \/
   exists s before after,
     data field = Py.PyStr s /\ s = before +:+ DELIM +:+ after)
  /\ (forall r, (validate_tag DELIM field).2 = Some r ->
                exists msg, r = ValidationError msg)
  /\ (validate_tag DELIM field).1 = field.
Proof.
  unfold validate_tag. destruct (data field) as [| | |s| |] eqn:Hd; cbn;
    try (split; [split; [intros _; left; reflexivity | discriminate]
                | split; [intros r [= <-]; eauto | reflexivity]]).
  destruct (Py.str_in DELIM s) eqn:Hin; cbn.
  - split; [|split; [intros r [= <-]; eauto | reflexivity]].
    split; [|discriminate]. intros _. right.
    apply str_in_spec in Hin. destruct Hin as (before & after & ->). eauto.
  - split; [|split; [discriminate | reflexivity]].
    split; [congruence|]. intros [H|(s' & before & after & [= <-] & Hs)].
    + discriminate.
    + assert (Py.str_in DELIM s = true) as Hyes by (apply str_in_spec; eauto).
      congruence.
Qed.

(** An entry bound from an item validates exactly when the validator
    accepts the item. *)
Lemma tag_entry_ok item :
  entry_ok (tag_entry DELIM) (Field_process (tag_entry DELIM) (Some item))
  = valid_tag DELIM item.
Proof.
  unfold entry_ok, valid_tag, Field_validate. cbn.
  unfold validate_tag. cbn.
  destruct item; try reflexivity.
  destruct (Py.str_in DELIM s); reflexivity.
Qed.

(** The entries bound from a list of tags on the create and edit forms,
    and when they validate. *)
Lemma tag_entries_of_list items :
  exists entries,
    FieldList_process (tag_entry DELIM) 0 (Some (Py.PyList items))
    = Py.Return entries
    /\ forallb (entry_ok (tag_entry DELIM)) entries
       = forallb (valid_tag DELIM) items.
Proof.
  rewrite FieldList_process_list. eexists. split; [reflexivity|].
  cbn [Nat.sub replicate]. rewrite app_nil_r.
  induction items as [|item items IH]; [reflexivity|].
  rewrite fmap_cons. cbn [forallb]. rewrite tag_entry_ok, IH. reflexivity.
Qed.

(** Joining a list of strings returns, in the order of the list. *)
Lemma join_strs (l : list string) :
  Py.join DELIM (Py.PyList (Py.PyStr <$> l))
  = Py.Return (String.concat DELIM l).
Proof. unfold Py.join. cbn. rewrite strings_of_strs. reflexivity. Qed.

(** *** The declared schemas *)

(** The fields of the API forms after inheritance, in field order. *)
Lemma create_fields :
  ApiBookmarkCreateForm DELIM =
  [ ("url",
     Plain (mkUnbound StringField None None [DataRequired] [] Py.PyNone));
    ("title", Plain (mkUnbound StringField None None [] [] Py.PyNone));
    ("description", Plain (mkUnbound StringField None None [] [] Py.PyNone));
    ("tags", FieldList (tag_entry DELIM) 0);
    ("fetch",
     Plain (mkUnbound HiddenField None None [] [bool_filter]
              (Py.PyBool true))) ].
Proof. reflexivity. Qed.

Lemma edit_fields :
  ApiBookmarkEditForm DELIM =
  [ ("title", Plain (mkUnbound StringField None None [] [] Py.PyNone));
    ("description", Plain (mkUnbound StringField None None [] [] Py.PyNone));
    ("tags", FieldList (tag_entry DELIM) 0);
    ("fetch",
     Plain (mkUnbound HiddenField None None [] [bool_filter]
              (Py.PyBool true)));
    ("url", Plain (mkUnbound StringField None None [] [] Py.PyNone)) ].
Proof. reflexivity. Qed.

Lemma range_edit_fields :
  ApiBookmarkRangeEditForm DELIM =
  ApiBookmarkEditForm DELIM ++
  [ ("del_tags",
     Plain (mkUnbound BooleanField (Some "Delete tags list from existing tags")
              None [] [] (Py.PyBool false))) ].
Proof. reflexivity. Qed.

(** Binding and validating each API form, given the entries its [tags]
    list binds: the form is valid when the entries are, and on the create
    form when [url] has data as well. *)
Lemma create_process data entries :
  FieldList_process (tag_entry DELIM) 0 (data !! "tags") = Py.Return entries ->
  exists bound,
    process (ApiBookmarkCreateForm DELIM) data = Py.Return bound /\
    (validate bound).2
    = has_data (Py.get data "url")
      && forallb (entry_ok (tag_entry DELIM)) entries /\
    (has_data (Py.get data "url") = false ->
     exists rest,
       form_errors (validate bound).1
       = ("url", Messages [required_message]) :: rest).
Proof.
  intros Hfl. rewrite create_fields. cbn [process]. rewrite Hfl.
  cbn [mbind Py.outcome_bind]. eexists. split; [reflexivity|]. split.
  - rewrite validate_valid. cbn [forallb snd].
    rewrite required_has_errors by reflexivity.
    rewrite FieldList_has_errors, !plain_no_errors by reflexivity.
    cbn [Field_process WTForms.data ftype default_ filters foldl
         Field_process_data].
    unfold Py.get. destruct (has_data _); cbn; [|reflexivity].
    rewrite andb_true_r. reflexivity.
  - intros Hurl. unfold validate. cbn [fst fmap list_fmap prod_map id snd].
    unfold form_errors. cbn [omap list_omap fst snd has_errors validate_bound].
    rewrite required_errors by reflexivity.
    cbn [Field_process WTForms.data ftype default_ filters foldl
         Field_process_data].
    unfold Py.get in Hurl. rewrite Hurl. cbn. eauto.
Qed.

Lemma edit_process data entries :
  FieldList_process (tag_entry DELIM) 0 (data !! "tags") = Py.Return entries ->
  exists bound,
    process (ApiBookmarkEditForm DELIM) data = Py.Return bound /\
    (validate bound).2 = forallb (entry_ok (tag_entry DELIM)) entries.
Proof.
  intros Hfl. rewrite edit_fields. cbn [process]. rewrite Hfl.
  cbn [mbind Py.outcome_bind]. eexists. split; [reflexivity|].
  rewrite validate_valid. cbn [forallb snd].
  rewrite FieldList_has_errors, !plain_no_errors by reflexivity.
  cbn. rewrite andb_true_r. reflexivity.
Qed.

Lemma range_edit_process data entries :
  FieldList_process (tag_entry DELIM) 0 (data !! "tags") = Py.Return entries ->
  exists bound,
    process (ApiBookmarkRangeEditForm DELIM) data = Py.Return bound /\
    (validate bound).2 = forallb (entry_ok (tag_entry DELIM)) entries.
Proof.
  intros Hfl. rewrite range_edit_fields, edit_fields. cbn [app process].
  rewrite Hfl. cbn [mbind Py.outcome_bind]. eexists. split; [reflexivity|].
  rewrite validate_valid. cbn [forallb snd].
  rewrite FieldList_has_errors, !plain_no_errors by reflexivity.
  cbn. rewrite andb_true_r. reflexivity.
Qed.

(** The base form has the [tags] list only, so its errors are the
    entries' messages. *)
Lemma base_process data entries :
  FieldList_process (required_tag_entry DELIM) 1 (data !! "tags")
  = Py.Return entries ->
  exists bound,
    process (ApiTagForm DELIM) data = Py.Return bound /\
    (validate bound).2
    = forallb (entry_ok (required_tag_entry DELIM)) entries /\
    (forallb (entry_ok (required_tag_entry DELIM)) entries = false ->
     form_errors (validate bound).1
     = [("tags",
         EntryMessages
           (errors
            <$> (Field_validate (required_tag_entry DELIM) <$> entries)))]).
Proof.
  intros Hfl. unfold ApiTagForm. fold (required_tag_entry DELIM).
  cbn [process]. rewrite Hfl.
  cbn [mbind Py.outcome_bind]. eexists. split; [reflexivity|].
  pose proof (FieldList_has_errors (required_tag_entry DELIM) entries) as Herr.
  split.
  - rewrite validate_valid. cbn [forallb snd]. rewrite Herr.
    apply andb_true_r.
  - intros Hbad. rewrite Hbad in Herr. apply negb_false_iff in Herr.
    unfold validate, form_errors.
    cbn [fst fmap list_fmap prod_map id snd omap list_omap].
    rewrite Herr. cbn [validate_bound FieldList_validate].
    unfold entry_ok in Hbad.
    replace (forallb _ (errors <$> _)) with false; [reflexivity|].
    rewrite <- Hbad. clear.
    induction entries as [|e entries IH]; [reflexivity|].
    cbn. rewrite IH. reflexivity.
Qed.

(** *** The shape of [process_data] *)

(** The method, with the validated fields named. *)
Lemma process_data_eq self data :
  process_data self data =
    let tags := Py.get data "tags" in
    if guard tags then Py.Return (self, type_mismatch)
    else
      bound ← process (cls self) data;
      let checked := validate bound in
      if checked.2 then
        ts ← new_tags_str tags;
        Py.Return (mkSelf (cls self) checked.1 ts (tags_in self), (None, None))
      else
        Py.Return (mkSelf (cls self) checked.1 (tags_str self) (tags_in self),
                   (Some Response.INPUT_NOT_VALID,
                    Some (mkErrorData (form_errors checked.1)))).
Proof.
  unfold ApiTagForm_process_data. cbv zeta.
  destruct (guard (Py.get data "tags")); [reflexivity|].
  destruct (process (cls self) data) as [bound|e]; [|reflexivity].
  cbn [mbind Py.outcome_bind].
  destruct (validate bound) as [checked [|]]; reflexivity.
Qed.

(** How a call ends once the fields have bound. *)
Lemma process_data_bound self data bound :
  guard (Py.get data "tags") = false ->
  process (cls self) data = Py.Return bound ->
  observe (process_data self data) =
    if (validate bound).2 then
      ts ← new_tags_str (Py.get data "tags");
      Py.Return (ts, tags_in self, (None, None))
    else
      Py.Return (tags_str self, tags_in self,
                 (Some Response.INPUT_NOT_VALID,
                  Some (mkErrorData (form_errors (validate bound).1)))).
Proof.
  intros Hg Hp. rewrite process_data_eq. cbv zeta. rewrite Hg, Hp.
  cbn [mbind Py.outcome_bind]. destruct (validate bound).2; [|reflexivity].
  destruct (Py.is_none _); [reflexivity|].
  destruct (Py.join _ _); reflexivity.
Qed.

(** Whenever the method returns, the pair is the type mismatch, a
    validation failure, or success. *)
Lemma process_data_returns self data self' r :
  process_data self data = Py.Return (self', r) ->
  (guard (Py.get data "tags") = true /\ self' = self /\ r = type_mismatch)
  \/ (guard (Py.get data "tags") = false /\
      exists bound,
        process (cls self) data = Py.Return bound /\
        fields self' = (validate bound).1 /\
        tags_in self' = tags_in self /\
        (((validate bound).2 = false /\
          tags_str self' = tags_str self /\
          r = (Some Response.INPUT_NOT_VALID,
               Some (mkErrorData (form_errors (validate bound).1))))
         \/ ((validate bound).2 = true /\ r = (None, None) /\
             (if Py.is_none (Py.get data "tags") then Py.Return None
              else joined ← Py.join DELIM (Py.get data "tags");
                   Py.Return (Some (parse_tags [joined])))
             = Py.Return (tags_str self')))).
Proof.
  rewrite process_data_eq. cbv zeta.
  destruct (guard (Py.get data "tags")).
  - intros [= <- <-]. left. auto.
  - destruct (process (cls self) data) as [bound|e]; [|discriminate].
    cbn [mbind Py.outcome_bind]. intros H. right. split; [reflexivity|].
    exists bound. split; [reflexivity|].
    destruct (validate bound).2.
    + destruct (if Py.is_none _ then _ else _) as [ts|e]; [|discriminate].
      cbn [mbind Py.outcome_bind] in H. injection H as <- <-. cbn. auto 10.
    + injection H as <- <-. cbn. auto 10.
Qed.

(** So a returned pair is never half set. *)
Lemma process_data_paired self data self' r :
  process_data self data = Py.Return (self', r) ->
  r = (None, None) \/ exists kind detail, r = (Some kind, Some detail).
Proof.
  intros H. apply process_data_returns in H.
  destruct H as [(_ & _ & ->)|(_ & bound & _ & _ & _ & H)];
    [|destruct H as [(_ & _ & ->)|(_ & -> & _)]];
    unfold type_mismatch; eauto.
Qed.

(** Under the guard of [process_data] the [tags] list field always binds. *)
Lemma FieldList_process_guarded u m data :
  guard (Py.get data "tags") = false ->
  exists entries, FieldList_process u m (data !! "tags") = Py.Return entries.
Proof.
  unfold Py.get. intros Hg. destruct (data !! "tags") as [v|].
  - simpl in Hg. destruct (Py.truthy v) eqn:Hv.
    + destruct v; try discriminate. rewrite FieldList_process_list. eauto.
    + rewrite FieldList_process_falsy by exact Hv. eauto.
  - rewrite FieldList_process_unset. eauto.
Qed.

(** The range-edit method when the base method leaves [tags_str] unset. *)
Lemma range_edit_unset self data self' r :
  process_data self data = Py.Return (self', r) ->
  tags_str self' = None ->
  range_process_data self data = Py.Return (self', r).
Proof.
  intros Hbase Hts. unfold ApiBookmarkRangeEditForm_process_data.
  rewrite Hbase. cbn [mbind Py.outcome_bind]. destruct r as [kind detail].
  rewrite Hts. reflexivity.
Qed.

(** After a success on a range-edit form, [del_tags.data] is the truth
    value of the submitted entry, or of the default [False]. *)
Lemma del_tags_data self data self' r :
  cls self = ApiBookmarkRangeEditForm DELIM ->
  process_data self data = Py.Return (self', r) ->
  r = (None, None) ->
  field_data self' "del_tags"
  = Py.Return
      (Py.PyBool (Py.truthy (default (Py.PyBool false) (data !! "del_tags")))).
Proof.
  intros Hcls Hbase ->. apply process_data_returns in Hbase.
  destruct Hbase as [(_ & _ & [=])|(_ & bound & Hp & Hf & _)].
  unfold field_data. rewrite Hf, validate_bound_field.
  rewrite Hcls in Hp. bound_plain Hp. reflexivity.
Qed.

(** *** The [tags] entry: not a list, omitted, empty, a list of tags *)

(** C1 (amended): when the [tags] entry is truthy and not a list, the
    method returns the type-mismatch error and leaves the object as it
    was, whatever the class and the other entries; the range-edit method
    does the same on an object whose [tags_str] is unset. *)
Theorem truthy_non_list_tags_type_mismatch self data v :
  data !! "tags" = Some v ->
  Py.truthy v = true ->
  Py.is_list v = false ->
  process_data self data = Py.Return (self, type_mismatch)
  /\ (tags_str self = None ->
      range_process_data self data = Py.Return (self, type_mismatch)).
Proof.
  intros Hv Ht Hl.
  assert (process_data self data = Py.Return (self, type_mismatch)) as Hbase.
  { rewrite process_data_eq. cbv zeta. unfold Py.get. rewrite Hv. cbn [default].
    cbn. rewrite Ht, Hl. reflexivity. }
  split; [exact Hbase|]. intros Hts. apply range_edit_unset; assumption.
Qed.

(** Without a [tags] entry the edit forms accept the mapping and unset
    [tags_str]. *)
Lemma edit_without_tags self data :
  data !! "tags" = None ->
  cls self = ApiBookmarkEditForm DELIM
  \/ cls self = ApiBookmarkRangeEditForm DELIM ->
  observe (process_data self data)
  = Py.Return (None, tags_in self, (None, None)).
Proof.
  intros Hnone Hcls. pose proof (get_unset _ _ Hnone) as Hget.
  assert (guard (Py.get data "tags") = false) as Hg
    by (rewrite Hget; reflexivity).
  assert (exists bound, process (cls self) data = Py.Return bound
                        /\ (validate bound).2 = true) as (bound & Hp & Hv).
  { destruct Hcls as [-> | ->].
    - destruct (edit_process data [])
        as (bound & Hp & Hv); [rewrite Hnone; reflexivity|]. eauto.
    - destruct (range_edit_process data [])
        as (bound & Hp & Hv); [rewrite Hnone; reflexivity|]. eauto. }
  rewrite (process_data_bound _ _ _ Hg Hp), Hv, Hget. reflexivity.
Qed.

(** C3 (amended): when the mapping has no [tags] entry the method never
    returns the type-mismatch error and [tags_str] stays unset: it is
    [None] after a success and untouched after a failure.  The edit forms
    succeed; the create form succeeds exactly when [url] passes
    [DataRequired]; the base form, which requires one tag entry, fails
    validation. *)
Theorem omitted_tags self data :
  data !! "tags" = None ->
  (forall ts ti r,
     observe (process_data self data) = Py.Return (ts, ti, r) ->
     r <> type_mismatch
     /\ (r = (None, None) -> ts = None)
     /\ (tags_str self = None -> ts = None))
  /\ (cls self = ApiBookmarkEditForm DELIM
      \/ cls self = ApiBookmarkRangeEditForm DELIM ->
      observe (process_data self data)
      = Py.Return (None, tags_in self, (None, None)))
  /\ (cls self = ApiBookmarkRangeEditForm DELIM ->
      observe (range_process_data self data)
      = Py.Return (None, tags_in self, (None, None)))
  /\ (cls self = ApiBookmarkCreateForm DELIM ->
      if has_data (Py.get data "url") then
        observe (process_data self data)
        = Py.Return (None, tags_in self, (None, None))
      else
        exists rest,
          observe (process_data self data)
          = Py.Return (tags_str self, tags_in self,
                       (Some Response.INPUT_NOT_VALID,
                        Some (mkErrorData
                                (("url", Messages [required_message])
                                 :: rest)))))
  /\ (cls self = ApiTagForm DELIM ->
      observe (process_data self data)
      = Py.Return (tags_str self, tags_in self,
                   (Some Response.INPUT_NOT_VALID,
                    Some (mkErrorData
                            [("tags", EntryMessages [[required_message]])])))).
Proof.
  intros Hnone. pose proof (get_unset _ _ Hnone) as Hget.
  assert (guard (Py.get data "tags") = false) as Hg
    by (rewrite Hget; reflexivity).
  assert (forall bound,
            process (cls self) data = Py.Return bound ->
            (validate bound).2 = true ->
            observe (process_data self data)
            = Py.Return (None, tags_in self, (None, None))) as Hok.
  { intros bound Hp Hv. rewrite (process_data_bound _ _ _ Hg Hp), Hv, Hget.
    reflexivity. }
  pose proof (edit_without_tags self data Hnone) as Hedit.
  split; [|split; [exact Hedit|split; [|split]]].
  - intros ts ti r Hobs. apply observe_return in Hobs.
    destruct Hobs as (self' & Hret & <- & _).
    apply process_data_returns in Hret.
    destruct Hret as [(Hg' & _)|(_ & bound & _ & _ & _ & Hr)]; [congruence|].
    destruct Hr as [(_ & Hs & ->)|(_ & -> & Hs)].
    + split; [apply form_errors_not_type_mismatch|].
      split; [discriminate|congruence].
    + rewrite Hget in Hs. injection Hs as <-.
      split; [discriminate|]. auto.
  - intros Hcls. specialize (Hedit (or_intror Hcls)).
    apply observe_return in Hedit. destruct Hedit as (self' & Hret & Hs & Hi).
    apply observe_return. exists self'. split; [|auto].
    apply range_edit_unset; assumption.
  - intros Hcls.
    destruct (create_process data [])
      as (bound & Hp & Hv & Herr); [rewrite Hnone; reflexivity|].
    rewrite <- Hcls in Hp. destruct (has_data (Py.get data "url")).
    + apply (Hok bound); assumption.
    + destruct (Herr eq_refl) as (rest & Hrest). exists rest.
      rewrite (process_data_bound _ _ _ Hg Hp), Hv, Hrest. reflexivity.
  - intros Hcls.
    destruct (base_process data
                [Field_process (required_tag_entry DELIM) None])
      as (bound & Hp & Hv & Herr); [rewrite Hnone; reflexivity|].
    rewrite <- Hcls in Hp.
    rewrite (process_data_bound _ _ _ Hg Hp), Hv, Herr by reflexivity.
    reflexivity.
Qed.

(** A list of tags on an edit form, every item of which [validate_tag]
    accepts: the method ends as the join does, with the helper's string
    in [tags_str] when the join returns. *)
Lemma edit_list_tags self data items :
  cls self = ApiBookmarkEditForm DELIM
  \/ cls self = ApiBookmarkRangeEditForm DELIM ->
  data !! "tags" = Some (Py.PyList items) ->
  forallb (valid_tag DELIM) items = true ->
  observe (process_data self data)
  = (joined ← Py.join DELIM (Py.PyList items);
     Py.Return (Some (parse_tags [joined]), tags_in self, (None, None))).
Proof.
  intros Hcls Htags Hvalid. pose proof (get_entry _ _ _ Htags) as Hget.
  destruct (tag_entries_of_list items) as (entries & Hfl & Hok).
  rewrite <- Htags in Hfl. rewrite Hvalid in Hok.
  assert (exists bound, process (cls self) data = Py.Return bound
                        /\ (validate bound).2 = true) as (bound & Hp & Hv).
  { destruct Hcls as [-> | ->].
    - destruct (edit_process data entries Hfl) as (bound & Hp & Hv).
      exists bound. split; congruence.
    - destruct (range_edit_process data entries Hfl) as (bound & Hp & Hv).
      exists bound. split; congruence. }
  rewrite (process_data_bound self data bound); [|rewrite Hget|exact Hp].
  - rewrite Hv, Hget. cbn [Py.is_none].
    destruct (Py.join DELIM (Py.PyList items)); reflexivity.
  - cbn. apply andb_false_r.
Qed.

(** C9 (amended): when the [tags] entry is the empty list the method
    never returns the type-mismatch error, and whenever it succeeds
    [tags_str] is the string the helper makes of the empty join, not
    [None] as for an omitted entry.  It succeeds on the edit forms, and on
    the create form exactly when [url] passes [DataRequired]; when it
    fails [tags_str] is left as it was. *)
Theorem empty_tags_list self data :
  data !! "tags" = Some (Py.PyList []) ->
  (forall ts ti r,
     observe (process_data self data) = Py.Return (ts, ti, r) ->
     r <> type_mismatch /\ (r = (None, None) -> ts = Some (parse_tags [""])))
  /\ (cls self = ApiBookmarkEditForm DELIM
      \/ cls self = ApiBookmarkRangeEditForm DELIM ->
      observe (process_data self data)
      = Py.Return (Some (parse_tags [""]), tags_in self, (None, None)))
  /\ (cls self = ApiBookmarkCreateForm DELIM ->
      if has_data (Py.get data "url") then
        observe (process_data self data)
        = Py.Return (Some (parse_tags [""]), tags_in self, (None, None))
      else
        exists rest,
          observe (process_data self data)
          = Py.Return (tags_str self, tags_in self,
                       (Some Response.INPUT_NOT_VALID,
                        Some (mkErrorData
                                (("url", Messages [required_message])
                                 :: rest))))).
Proof.
  intros Htags. pose proof (get_entry _ _ _ Htags) as Hget.
  assert (guard (Py.get data "tags") = false) as Hg
    by (rewrite Hget; reflexivity).
  split; [|split].
  - intros ts ti r Hobs. apply observe_return in Hobs.
    destruct Hobs as (self' & Hret & <- & _).
    apply process_data_returns in Hret.
    destruct Hret as [(Hg' & _)|(_ & bound & _ & _ & _ & Hr)]; [congruence|].
    destruct Hr as [(_ & Hs & ->)|(_ & -> & Hs)].
    + split; [apply form_errors_not_type_mismatch|discriminate].
    + rewrite Hget in Hs. injection Hs as <-. split; [discriminate|reflexivity].
  - intros Hcls. rewrite (edit_list_tags self data []); auto.
  - intros Hcls.
    destruct (create_process data [])
      as (bound & Hp & Hv & Herr); [rewrite Htags; reflexivity|].
    rewrite <- Hcls in Hp.
    rewrite (process_data_bound _ _ _ Hg Hp), Hv, Hget.
    destruct (has_data (Py.get data "url")).
    + reflexivity.
    + destruct (Herr eq_refl) as (rest & Hrest). exists rest.
      rewrite Hrest. reflexivity.
Qed.

(** On the edit form a falsy [tags] value that cannot be iterated passes
    the guard, binds no entry and validates; the join then raises. *)
Lemma edit_form_raises self data :
  cls self = ApiBookmarkEditForm DELIM ->
  data !! "tags" = Some (Py.PyInt 0)
  \/ data !! "tags" = Some (Py.PyBool false) ->
  process_data self data = Py.Raise Py.TypeError.
Proof.
  intros Hcls Htags.
  assert (FieldList_process (tag_entry DELIM) 0 (data !! "tags") = Py.Return [])
    as Hfl by (destruct Htags as [-> | ->]; reflexivity).
  destruct (edit_process data [] Hfl) as (bound & Hp & Hv).
  rewrite process_data_eq, Hcls, Hp. unfold Py.get. cbv zeta.
  cbn [mbind Py.outcome_bind]. rewrite Hv.
  destruct Htags as [-> | ->]; reflexivity.
Qed.

(** *** When the method raises *)

(** Items that [validate_tag] accepts are strings. *)
Lemma valid_tags_strs items :
  forallb (valid_tag DELIM) items = true ->
  exists l, items = Py.PyStr <$> l.
Proof.
  induction items as [|item items IH]; cbn [forallb].
  - exists []. reflexivity.
  - intros Hall. apply andb_true_iff in Hall. destruct Hall as [Hitem Hall].
    destruct (IH Hall) as (l & ->).
    destruct item; try discriminate. exists (s :: l). reflexivity.
Qed.




(** C6 (failing input): on the edit form, [tags] = 0 passes the guard,
    binds and validates, and then the join raises [TypeError]: the method
    returns no pair at all. *)
Theorem process_data_raises_on_zero_tags :
  observe (process_data (new (ApiBookmarkEditForm DELIM))
             {[ "tags" := Py.PyInt 0 ]})
  = Py.Raise Py.TypeError.
Proof. reflexivity. Qed.

(** *** The range-edit step *)

(** C4: on a range-edit form, when the base method succeeds and leaves
    the normalized string [s] in [tags_str], the range-edit method
    succeeds too and sets [tags_in] to [s] behind a sign: "-" when
    [del_tags.data] is true and "+" when it is false, [del_tags.data]
    being the truth value of the submitted [del_tags] entry, false when
    there is none.  With [s] = "a,b" the instruction is "-a,b" or
    "+a,b". *)
Theorem range_edit_prefix self data s ti :
  cls self = ApiBookmarkRangeEditForm DELIM ->
  observe (process_data self data) = Py.Return (Some s, ti, (None, None)) ->
  exists self2 flag,
    range_process_data self data = Py.Return (self2, (None, None))
    /\ field_data self2 "del_tags" = Py.Return (Py.PyBool flag)
    /\ flag = Py.truthy (default (Py.PyBool false) (data !! "del_tags"))
    /\ tags_str self2 = Some s
    /\ tags_in self2 = Some ((if flag then "-" else "+") +:+ s)
    /\ (s = "a,b" -> tags_in self2 = Some (if flag then "-a,b" else "+a,b")).
Proof.
  intros Hcls Hbase. apply observe_return in Hbase.
  destruct Hbase as (self1 & Hbase & Hts & _).
  pose proof (del_tags_data _ _ _ _ Hcls Hbase eq_refl) as Hdel.
  set (flag := Py.truthy (default (Py.PyBool false) (data !! "del_tags"))) in *.
  unfold ApiBookmarkRangeEditForm_process_data.
  rewrite Hbase. cbn [mbind Py.outcome_bind]. rewrite Hts, Hdel.
  cbn [mbind Py.outcome_bind Py.truthy].
  eexists. exists flag. split; [reflexivity|].
  cbn [tags_str tags_in]. split; [exact Hdel|]. split; [reflexivity|].
  split; [reflexivity|]. split; [reflexivity|].
  intros ->. destruct flag; reflexivity.
Qed.

(** C10: on an object whose [tags_str] and [tags_in] are unset, when the
    base method returns an error the range-edit method returns the same
    pair and both attributes are still unset afterwards. *)
Theorem range_edit_keeps_error self data ts ti kind detail :
  tags_str self = None ->
  tags_in self = None ->
  observe (process_data self data) = Py.Return (ts, ti, (Some kind, detail)) ->
  observe (range_process_data self data)
  = Py.Return (None, None, (Some kind, detail)).
Proof.
  intros Hts Hti Hbase. apply observe_return in Hbase.
  destruct Hbase as (self' & Hbase & _ & _).
  assert (tags_str self' = None /\ tags_in self' = None) as [Hts' Hti'].
  { pose proof (process_data_returns _ _ _ _ Hbase) as Hr.
    destruct Hr as [(_ & -> & _)|(_ & bound & _ & _ & Hin & Hr)]; [auto|].
    destruct Hr as [(_ & Hs & _)|(_ & [=] & _)]. split; congruence. }
  apply observe_return. exists self'. split; [|auto].
  apply range_edit_unset; assumption.
Qed.

(** *** Required and optional fields, defaults *)

(** C7: [url] carries a required-value validator on the create forms,
    [InputRequired] on [BookmarkForm] and [DataRequired] on
    [ApiBookmarkCreateForm], and validation fails on them when the value
    is missing or empty; on [ApiBookmarkEditForm] it carries no validator
    and a mapping without [url] is accepted; the edit form's other fields
    are the create form's, in the same order. *)
Theorem url_required_on_create_optional_on_edit :
  (exists u,
     declared BookmarkForm "url" = Some (Plain u)
     /\ validators u = [InputRequired]
     /\ forall field,
          raw_data field = None \/ raw_data field = Some []
          \/ (exists rest, raw_data field = Some ("" :: rest)) ->
          errors (Field_validate u field) = [required_message])
  /\ (exists u,
        declared (ApiBookmarkCreateForm DELIM) "url" = Some (Plain u)
        /\ validators u = [DataRequired]
        /\ forall self data,
             cls self = ApiBookmarkCreateForm DELIM ->
             data !! "url" = None \/ data !! "url" = Some (Py.PyStr "") ->
             exists detail,
               observe (process_data self data)
               = Py.Return (tags_str self, tags_in self,
                            (Some Response.INPUT_NOT_VALID, Some detail))
               /\ (guard (Py.get data "tags") = false ->
                   exists rest,
                     errors_ detail
                     = ("url", Messages [required_message]) :: rest))
  /\ (exists u,
        declared (ApiBookmarkEditForm DELIM) "url" = Some (Plain u)
        /\ validators u = []
        /\ forall self data,
             cls self = ApiBookmarkEditForm DELIM ->
             data !! "url" = None ->
             data !! "tags" = None ->
             observe (process_data self data)
             = Py.Return (None, tags_in self, (None, None)))
  /\ filter (fun d => d.1 <> "url") (ApiBookmarkEditForm DELIM)
     = filter (fun d => d.1 <> "url") (ApiBookmarkCreateForm DELIM).
Proof.
  split; [|split; [|split]].
  - eexists. split; [reflexivity|]. split; [reflexivity|].
    intros field. apply input_required_errors. reflexivity.
  - eexists. split; [reflexivity|]. split; [reflexivity|].
    intros self data Hcls Hurl.
    assert (has_data (Py.get data "url") = false) as Hno.
    { unfold Py.get. destruct Hurl as [-> | ->]; reflexivity. }
    destruct (guard (Py.get data "tags")) eqn:Hg.
    + exists (mkErrorData [("tags", Message "List of tags expected.")]).
      rewrite process_data_eq. cbv zeta. rewrite Hg. split; [reflexivity|].
      discriminate.
    + destruct (FieldList_process_guarded (tag_entry DELIM) 0 data Hg)
        as (entries & Hfl).
      destruct (create_process data entries Hfl)
        as (bound & Hp & Hv & Herr).
      rewrite <- Hcls in Hp. rewrite Hno in Hv.
      eexists. rewrite (process_data_bound _ _ _ Hg Hp), Hv.
      split; [reflexivity|]. intros _. cbn [errors_]. auto.
  - eexists. split; [reflexivity|]. split; [reflexivity|].
    intros self data Hcls _ Htags.
    apply edit_without_tags; auto.
  - reflexivity.
Qed.

(** C8: the search form declares [keywords] as a list of string fields
    with [min_entries] 1, so a bound form has at least one keyword entry;
    a toggle for which nothing is submitted holds true for
    [all_keywords] and [markers] and false for [deep] and [regex]. *)
Theorem search_form_defaults :
  declared SearchBookmarksForm "keywords"
  = Some (FieldList
            (mkUnbound StringField (Some "Keywords") None [] [] Py.PyNone) 1)
  /\ (exists bound, process SearchBookmarksForm ∅ = Py.Return bound)
  /\ forall kwargs bound,
       process SearchBookmarksForm kwargs = Py.Return bound ->
       (exists keywords,
          bound_field bound "keywords" = Some keywords
          /\ 1 <= entry_count keywords)
       /\ (kwargs !! "all_keywords" = None ->
           bound_data <$> bound_field bound "all_keywords"
           = Some (Py.PyBool true))
       /\ (kwargs !! "markers" = None ->
           bound_data <$> bound_field bound "markers" = Some (Py.PyBool true))
       /\ (kwargs !! "deep" = None ->
           bound_data <$> bound_field bound "deep" = Some (Py.PyBool false))
       /\ (kwargs !! "regex" = None ->
           bound_data <$> bound_field bound "regex" = Some (Py.PyBool false)).
Proof.
  split; [reflexivity|]. split; [eexists; reflexivity|].
  intros kwargs bound Hp.
  destruct (process_list _ _ _ "keywords" _ _ Hp eq_refl)
    as (entries & Hfl & Hb).
  split;
    [|repeat split; intros Hnone; bound_plain Hp; rewrite Hnone; reflexivity].
  eexists. split; [exact Hb|]. cbn [entry_count].
  eapply FieldList_process_min_entries. exact Hfl.
Qed.

End ApiForms.

(** ** The normalized string under the spec's reading of the helper *)

Section Normalized.

#[local] Abbreviation spec_process_data :=
  (ApiTagForm_process_data Buku.DELIM Buku.parse_tags).

(** C2: when the [tags] entry is a list of strings and the method
    succeeds, [tags_str] is the tags joined by the delimiter in the order
    given; on the edit forms it does succeed when no tag contains the
    delimiter; two tags [a] and [b] give [a], the delimiter, [b]. *)
Theorem tags_str_joins_tags self data (tags : list string) :
  data !! "tags" = Some (Py.PyList (Py.PyStr <$> tags)) ->
  (forall ts ti,
     observe (spec_process_data self data) = Py.Return (ts, ti, (None, None)) ->
     ts = Some (String.concat Buku.DELIM tags))
  /\ (cls self = ApiBookmarkEditForm Buku.DELIM
      \/ cls self = ApiBookmarkRangeEditForm Buku.DELIM ->
      Forall (fun tag => Py.str_in Buku.DELIM tag = false) tags ->
      observe (spec_process_data self data)
      = Py.Return (Some (String.concat Buku.DELIM tags), tags_in self,
                   (None, None)))
  /\ (forall a b,
        tags = [a; b] ->
        String.concat Buku.DELIM tags = a +:+ Buku.DELIM +:+ b).
Proof.
  intros Htags. pose proof (get_entry _ _ _ Htags) as Hget.
  split; [|split].
  - intros ts ti Hobs. apply observe_return in Hobs.
    destruct Hobs as (self' & Hret & <- & _).
    apply process_data_returns in Hret.
    destruct Hret as [(_ & _ & [=])|(_ & bound & _ & _ & _ & Hr)].
    destruct Hr as [(_ & _ & [=])|(_ & _ & Hs)].
    rewrite Hget in Hs. cbn [Py.is_none] in Hs. rewrite join_strs in Hs.
    injection Hs as <-. reflexivity.
  - intros Hcls Hvalid.
    rewrite (edit_list_tags _ _ self data (Py.PyStr <$> tags) Hcls Htags).
    + rewrite join_strs. reflexivity.
    + clear -Hvalid. induction Hvalid as [|tag tags Htag _ IH]; [reflexivity|].
      rewrite fmap_cons. cbn [forallb valid_tag]. rewrite Htag, IH. reflexivity.
  - intros a b ->. reflexivity.
Qed.

End Normalized.

(** ** The claims at sample requests *)

(** C5 at a tag with a comma and at a number. *)
Lemma validate_tag_rejects_iff_witness :
  (validate_tag "," (mkField (Py.PyStr "a,b") None [] [])).2 <> None
  /\ (validate_tag "," (mkField (Py.PyInt 7) None [] [])).2 <> None.
Proof.
  split.
  - apply (proj1 (validate_tag_rejects_iff ","
                    (mkField (Py.PyStr "a,b") None [] []))).
    right. exists "a,b", "a", "b". split; reflexivity.
  - apply (proj1 (validate_tag_rejects_iff ","
                    (mkField (Py.PyInt 7) None [] []))).
    left. reflexivity.
Defined.

(** C1 (counterexample): an empty string for [tags] is not a list, yet
    the edit form accepts the mapping. *)
Lemma non_list_tags_accepted :
  ({[ "tags" := Py.PyStr "" ]} : gmap string Py.value) !! "tags"
  = Some (Py.PyStr "")
  /\ Py.is_list (Py.PyStr "") = false
  /\ observe (ApiTagForm_process_data Buku.DELIM Buku.parse_tags
                (new (ApiBookmarkEditForm Buku.DELIM))
                {[ "tags" := Py.PyStr "" ]})
     = Py.Return (Some "", None, (None, None))
  /\ (None, None) <> type_mismatch.
Proof.
  split; [|split; [|split]]; [vm_compute; reflexivity .. | discriminate].
Qed.

(** C1 at a string of tags sent to the range-edit form. *)
Lemma truthy_non_list_tags_type_mismatch_witness :
  ApiTagForm_process_data Buku.DELIM Buku.parse_tags
    (new (ApiBookmarkRangeEditForm Buku.DELIM))
    {[ "tags" := Py.PyStr "a,b"; "url" := Py.PyStr "http://example.com" ]}
  = Py.Return (new (ApiBookmarkRangeEditForm Buku.DELIM), type_mismatch)
  /\ ApiBookmarkRangeEditForm_process_data Buku.DELIM Buku.parse_tags
       (new (ApiBookmarkRangeEditForm Buku.DELIM))
       {[ "tags" := Py.PyStr "a,b"; "url" := Py.PyStr "http://example.com" ]}
     = Py.Return (new (ApiBookmarkRangeEditForm Buku.DELIM), type_mismatch).
Proof.
  destruct (truthy_non_list_tags_type_mismatch Buku.DELIM Buku.parse_tags
              (new (ApiBookmarkRangeEditForm Buku.DELIM))
              {[ "tags" := Py.PyStr "a,b";
                 "url" := Py.PyStr "http://example.com" ]}
              (Py.PyStr "a,b")) as [Hbase Hrange];
    [vm_compute; reflexivity | reflexivity | reflexivity |].
  split; [exact Hbase | apply Hrange; reflexivity].
Defined.

(** C2 at two tags on the edit form. *)
Lemma tags_str_joins_tags_witness :
  observe (ApiTagForm_process_data Buku.DELIM Buku.parse_tags
             (new (ApiBookmarkEditForm Buku.DELIM))
             {[ "tags" := Py.PyList [Py.PyStr "a"; Py.PyStr "b"] ]})
  = Py.Return (Some "a,b", None, (None, None)).
Proof.
  assert (({[ "tags" := Py.PyList [Py.PyStr "a"; Py.PyStr "b"] ]}
             : gmap string Py.value) !! "tags"
          = Some (Py.PyList (Py.PyStr <$> ["a"; "b"]))) as Htags
    by (vm_compute; reflexivity).
  apply (proj1 (proj2 (tags_str_joins_tags
                         (new (ApiBookmarkEditForm Buku.DELIM)) _ _ Htags))).
  - left. reflexivity.
  - repeat constructor.
Defined.

(** C3 (counterexample): nothing is submitted, and the base form and the
    create form both answer with a validation error, not with success. *)
Lemma omitted_tags_rejected :
  (∅ : gmap string Py.value) !! "tags" = None
  /\ observe (ApiTagForm_process_data Buku.DELIM Buku.parse_tags
                (new (ApiTagForm Buku.DELIM)) ∅)
     = Py.Return (None, None,
                  (Some Response.INPUT_NOT_VALID,
                   Some (mkErrorData
                           [("tags",
                             EntryMessages [["This field is required."]])])))
  /\ observe (ApiTagForm_process_data Buku.DELIM Buku.parse_tags
                (new (ApiBookmarkCreateForm Buku.DELIM)) ∅)
     = Py.Return (None, None,
                  (Some Response.INPUT_NOT_VALID,
                   Some (mkErrorData
                           [("url", Messages ["This field is required."])])))
  /\ Some Response.INPUT_NOT_VALID <> None.
Proof.
  split; [|split; [|split]]; [vm_compute; reflexivity .. | discriminate].
Qed.

(** C3 at a mapping with a title only on the edit form. *)
Lemma omitted_tags_witness :
  observe (ApiTagForm_process_data Buku.DELIM Buku.parse_tags
             (new (ApiBookmarkEditForm Buku.DELIM))
             {[ "title" := Py.PyStr "buku" ]})
  = Py.Return (None, None, (None, None)).
Proof.
  assert (({[ "title" := Py.PyStr "buku" ]} : gmap string Py.value) !! "tags"
          = None) as Hnone by (vm_compute; reflexivity).
  apply (proj1 (proj2 (omitted_tags Buku.DELIM Buku.parse_tags
                         (new (ApiBookmarkEditForm Buku.DELIM)) _ Hnone))).
  left. reflexivity.
Defined.

(** C9 (counterexample): an empty tag list without [url] on the create
    form: validation fails and [tags_str], the first component observed,
    stays [None]. *)
Lemma empty_tags_list_rejected :
  ({[ "tags" := Py.PyList [] ]} : gmap string Py.value) !! "tags"
  = Some (Py.PyList [])
  /\ observe (ApiTagForm_process_data Buku.DELIM Buku.parse_tags
                (new (ApiBookmarkCreateForm Buku.DELIM))
                {[ "tags" := Py.PyList [] ]})
     = Py.Return (None, None,
                  (Some Response.INPUT_NOT_VALID,
                   Some (mkErrorData
                           [("url", Messages ["This field is required."])]))).
Proof. split; vm_compute; reflexivity. Qed.

(** C9 at an empty tag list on the edit form. *)
Lemma empty_tags_list_witness :
  observe (ApiTagForm_process_data Buku.DELIM Buku.parse_tags
             (new (ApiBookmarkEditForm Buku.DELIM))
             {[ "tags" := Py.PyList [] ]})
  = Py.Return (Some "", None, (None, None)).
Proof.
  assert (({[ "tags" := Py.PyList [] ]} : gmap string Py.value) !! "tags"
          = Some (Py.PyList [])) as Htags by (vm_compute; reflexivity).
  apply (proj1 (proj2 (empty_tags_list Buku.DELIM Buku.parse_tags
                         (new (ApiBookmarkEditForm Buku.DELIM)) _ Htags))).
  left. reflexivity.
Defined.

(** C4 at two tags, with [del_tags] set and without it. *)
Lemma range_edit_prefix_witness :
  (exists self2 flag,
     ApiBookmarkRangeEditForm_process_data Buku.DELIM Buku.parse_tags
       (new (ApiBookmarkRangeEditForm Buku.DELIM))
       {[ "tags" := Py.PyList [Py.PyStr "a"; Py.PyStr "b"];
          "del_tags" := Py.PyBool true ]}
     = Py.Return (self2, (None, None))
     /\ field_data self2 "del_tags" = Py.Return (Py.PyBool flag)
     /\ flag = true
     /\ tags_str self2 = Some "a,b"
     /\ tags_in self2 = Some "-a,b")
  /\ (exists self2 flag,
        ApiBookmarkRangeEditForm_process_data Buku.DELIM Buku.parse_tags
          (new (ApiBookmarkRangeEditForm Buku.DELIM))
          {[ "tags" := Py.PyList [Py.PyStr "a"; Py.PyStr "b"] ]}
        = Py.Return (self2, (None, None))
        /\ field_data self2 "del_tags" = Py.Return (Py.PyBool flag)
        /\ flag = false
        /\ tags_str self2 = Some "a,b"
        /\ tags_in self2 = Some "+a,b").
Proof.
  split.
  - destruct (range_edit_prefix Buku.DELIM Buku.parse_tags
                (new (ApiBookmarkRangeEditForm Buku.DELIM))
                {[ "tags" := Py.PyList [Py.PyStr "a"; Py.PyStr "b"];
                   "del_tags" := Py.PyBool true ]}
                "a,b" None eq_refl)
      as (self2 & flag & Hret & Hdel & Hflag & Hts & Hti & _);
      [vm_compute; reflexivity|].
    exists self2, flag. rewrite Hflag in Hti. auto.
  - destruct (range_edit_prefix Buku.DELIM Buku.parse_tags
                (new (ApiBookmarkRangeEditForm Buku.DELIM))
                {[ "tags" := Py.PyList [Py.PyStr "a"; Py.PyStr "b"] ]}
                "a,b" None eq_refl)
      as (self2 & flag & Hret & Hdel & Hflag & Hts & Hti & _);
      [vm_compute; reflexivity|].
    exists self2, flag. rewrite Hflag in Hti. auto.
Defined.

(** C10 at a tag that contains the delimiter. *)
Lemma range_edit_keeps_error_witness :
  observe (ApiBookmarkRangeEditForm_process_data Buku.DELIM Buku.parse_tags
             (new (ApiBookmarkRangeEditForm Buku.DELIM))
             {[ "tags" := Py.PyList [Py.PyStr "a,b"];
                "del_tags" := Py.PyBool true ]})
  = Py.Return (None, None,
               (Some Response.INPUT_NOT_VALID,
                Some (mkErrorData
                        [("tags",
                          EntryMessages
                            [["Tag must not contain delimiter "
                              +:+ dquote +:+ "," +:+ dquote +:+ "."]])]))).
Proof.
  apply (range_edit_keeps_error Buku.DELIM Buku.parse_tags
           (new (ApiBookmarkRangeEditForm Buku.DELIM))
           {[ "tags" := Py.PyList [Py.PyStr "a,b"];
              "del_tags" := Py.PyBool true ]}
           None None); [reflexivity | reflexivity |].
  vm_compute. reflexivity.
Defined.

(** C7 at an empty [url] on the create form. *)
Lemma url_required_on_create_optional_on_edit_witness :
  exists detail,
    observe (ApiTagForm_process_data Buku.DELIM Buku.parse_tags
               (new (ApiBookmarkCreateForm Buku.DELIM))
               {[ "url" := Py.PyStr ""; "title" := Py.PyStr "buku" ]})
    = Py.Return (None, None, (Some Response.INPUT_NOT_VALID, Some detail)).
Proof.
  destruct (url_required_on_create_optional_on_edit Buku.DELIM Buku.parse_tags)
    as (_ & (u & _ & _ & Hcreate) & _).
  destruct (Hcreate (new (ApiBookmarkCreateForm Buku.DELIM))
              {[ "url" := Py.PyStr ""; "title" := Py.PyStr "buku" ]} eq_refl)
    as (detail & Hobs & _); [right; vm_compute; reflexivity|].
  exists detail. exact Hobs.
Defined.

(** C8 at a request that sets [deep] only. *)
Lemma search_form_defaults_witness :
  exists bound,
    process SearchBookmarksForm {[ "deep" := Py.PyInt 1 ]} = Py.Return bound
    /\ bound_data <$> bound_field bound "all_keywords" = Some (Py.PyBool true)
    /\ bound_data <$> bound_field bound "markers" = Some (Py.PyBool true)
    /\ bound_data <$> bound_field bound "regex" = Some (Py.PyBool false).
Proof.
  assert (exists bound,
            process SearchBookmarksForm {[ "deep" := Py.PyInt 1 ]}
            = Py.Return bound) as [bound Hp]
    by (eexists; vm_compute; reflexivity).
  exists bound. split; [exact Hp|].
  destruct (proj2 (proj2 search_form_defaults) _ _ Hp)
    as (_ & Hall & Hmarkers & _ & Hregex).
  split; [apply Hall; vm_compute; reflexivity|].
  split; [apply Hmarkers; vm_compute; reflexivity|].
  apply Hregex; vm_compute; reflexivity.
Defined.

(** * Further properties of the API forms *)

Section MoreApiForms.

Variable DELIM : string.
Variable parse_tags : list string -> string.

#[local] Abbreviation process_data :=
  (ApiTagForm_process_data DELIM parse_tags).
#[local] Abbreviation range_process_data :=
  (ApiBookmarkRangeEditForm_process_data DELIM parse_tags).
#[local] Abbreviation guard tags := (Py.truthy tags && negb (Py.is_list tags)).
#[local] Abbreviation new_tags_str tags :=
  (if Py.is_none tags then Py.Return None
   else joined ← Py.join DELIM tags; Py.Return (Some (parse_tags [joined]))).

(** ** Calling again *)

(** A call repeated on the object it left, whatever [tags_in] holds by
    then, ends as the first one did. *)
Lemma process_data_again self data self1 r ti :
  process_data self data = Py.Return (self1, r) ->
  process_data (mkSelf (cls self1) (fields self1) (tags_str self1) ti) data
  = Py.Return (mkSelf (cls self1) (fields self1) (tags_str self1) ti, r).
Proof.
  rewrite !process_data_eq. cbv zeta. cbn [cls tags_str tags_in].
  destruct (guard (Py.get data "tags")) eqn:Hg.
  - intros [= <- <-]. reflexivity.
  - destruct (process (cls self) data) as [bound|e] eqn:Hp; [|discriminate].
    cbn [mbind Py.outcome_bind].
    destruct (validate bound).2 eqn:Hv.
    + destruct (new_tags_str (Py.get data "tags")) as [ts|e] eqn:Hts;
        [|discriminate].
      cbn [mbind Py.outcome_bind]. intros [= <- <-]. cbn [cls fields tags_str].
      rewrite Hp. cbn [mbind Py.outcome_bind]. rewrite Hv. reflexivity.
    + intros [= <- <-]. cbn [cls fields tags_str].
      rewrite Hp. cbn [mbind Py.outcome_bind]. rewrite Hv. reflexivity.
Qed.

(** X3: [process_data] is idempotent: called again with the same mapping
    on the object a returning call left, it returns the same pair and
    leaves that object as it is, for every form class. *)
Theorem process_data_idempotent self data self1 r :
  ApiTagForm_process_data DELIM parse_tags self data
  = Py.Return (self1, r) ->
  ApiTagForm_process_data DELIM parse_tags self1 data
  = Py.Return (self1, r).
Proof.
  intros H. pose proof (process_data_again _ _ _ _ (tags_in self1) H) as Hagain.
  destruct self1. exact Hagain.
Qed.

(** X4: so is the range-edit method: a second call with the same mapping
    computes the same instruction string and changes nothing. *)
Theorem range_edit_idempotent self data self2 r :
  ApiBookmarkRangeEditForm_process_data DELIM parse_tags self data
  = Py.Return (self2, r) ->
  ApiBookmarkRangeEditForm_process_data DELIM parse_tags self2 data
  = Py.Return (self2, r).
Proof.
  unfold ApiBookmarkRangeEditForm_process_data.
  destruct (process_data self data) as [[self1 [kind detail]]|e] eqn:Hbase;
    [|discriminate].
  cbn [mbind Py.outcome_bind].
  destruct (tags_str self1) as [s|] eqn:Hts.
  - destruct (field_data self1 "del_tags") as [del_tags|e] eqn:Hdel;
      [|discriminate].
    cbn [mbind Py.outcome_bind]. intros [= <- <-].
    match goal with
    | |- context [mkSelf _ _ _ ?ti] =>
        pose proof (process_data_again _ _ _ _ ti Hbase) as Hagain
    end.
    rewrite Hts in Hagain. rewrite Hagain.
    cbn [mbind Py.outcome_bind tags_str cls fields].
    unfold field_data in *. cbn [fields].
    destruct (bound_field (fields self1) "del_tags"); [|discriminate].
    injection Hdel as ->. reflexivity.
  - cbn [mbind Py.outcome_bind]. intros [= <- <-].
    pose proof (process_data_again _ _ _ _ (tags_in self1) Hbase) as Hagain.
    destruct self1 as [c f ts ti]. cbn [cls fields tags_str tags_in] in *.
    rewrite Hagain. cbn [mbind Py.outcome_bind tags_str]. rewrite Hts.
    reflexivity.
Qed.

(** ** What a call leaves and when it raises *)

(** X1: whenever [process_data] returns, on any form class, the pair is
    [(None, None)] or the input-validation kind with a description; the
    call never changes the object's class or [tags_in], and an error
    leaves [tags_str] as it was. *)
Theorem process_data_contract self data self1 r :
  ApiTagForm_process_data DELIM parse_tags self data
  = Py.Return (self1, r) ->
  cls self1 = cls self
  /\ tags_in self1 = tags_in self
  /\ (r = (None, None)
      \/ exists detail,
           r = (Some Response.INPUT_NOT_VALID, Some detail)
           /\ tags_str self1 = tags_str self).
Proof.
  rewrite process_data_eq. cbv zeta.
  destruct (guard (Py.get data "tags")).
  - intros [= <- <-]. unfold type_mismatch. eauto 6.
  - destruct (process (cls self) data) as [bound|e]; [|discriminate].
    cbn [mbind Py.outcome_bind]. destruct (validate bound).2.
    + destruct (new_tags_str (Py.get data "tags")) as [ts|e]; [|discriminate].
      cbn [mbind Py.outcome_bind]. intros [= <- <-]. cbn. auto.
    + intros [= <- <-]. cbn. eauto 6.
Qed.

(** X9: after the range-edit method returns, on any object and whatever
    the pair, [tags_in] is in step with [tags_str]: when [tags_str] holds
    a string, [tags_in] is that string behind "-" or "+"; when [tags_str]
    is unset, [tags_in] is what it was before the call. *)
Theorem range_edit_instruction self data self2 r :
  ApiBookmarkRangeEditForm_process_data DELIM parse_tags self data
  = Py.Return (self2, r) ->
  match tags_str self2 with
  | Some s =>
      tags_in self2 = Some ("-" +:+ s) \/ tags_in self2 = Some ("+" +:+ s)
  | None => tags_in self2 = tags_in self
  end.
Proof.
  unfold ApiBookmarkRangeEditForm_process_data.
  destruct (process_data self data) as [[self1 [kind detail]]|e] eqn:Hbase;
    [|discriminate].
  assert (tags_in self1 = tags_in self) as Hti.
  { apply process_data_returns in Hbase.
    destruct Hbase as [(_ & -> & _)|(_ & bound & _ & _ & Hti & _)]; auto. }
  cbn [mbind Py.outcome_bind].
  destruct (tags_str self1) as [s|] eqn:Hts.
  - destruct (field_data self1 "del_tags") as [del_tags|e]; [|discriminate].
    cbn [mbind Py.outcome_bind]. intros [= <- <-]. cbn [tags_str tags_in].
    destruct (Py.truthy del_tags); auto.
  - cbn [mbind Py.outcome_bind]. intros [= <- <-]. rewrite Hts. exact Hti.
Qed.



(** ** The error report *)

(** [Form.errors], field by field. *)
Lemma form_errors_skip name b rest :
  has_errors b = false ->
  form_errors ((name, b) :: rest) = form_errors rest.
Proof. intros Hb. unfold form_errors. cbn. rewrite Hb. reflexivity. Qed.

Lemma form_errors_list_field name u entries rest :
  form_errors ((name, validate_bound (BoundList u entries [])) :: rest)
  = (let messages := errors <$> (Field_validate u <$> entries) in
     if forallb (fun e => Nat.eqb (length e) 0) messages then []
     else [(name, EntryMessages messages)])
    ++ form_errors rest.
Proof.
  unfold form_errors. cbn.
  destruct (forallb _ (errors <$> _)) eqn:Hall; [reflexivity|].
  destruct (errors <$> _) eqn:Hm; [discriminate|]. reflexivity.
Qed.

Lemma form_errors_required name u value rest :
  validators u = [DataRequired] ->
  form_errors ((name, validate_bound (Bound u (Field_process u value))) :: rest)
  = (if has_data (data (Field_process u value)) then []
     else [(name, Messages [required_message])])
    ++ form_errors rest.
Proof.
  intros Hv. unfold form_errors. cbn [omap list_omap fst snd].
  rewrite required_has_errors by exact Hv.
  cbn [validate_bound]. rewrite required_errors by exact Hv.
  destruct (has_data _); reflexivity.
Qed.

(** The messages on the entries bound from a list of items. *)
Lemma tag_entry_messages (items : list Py.value) :
  errors <$> (Field_validate (tag_entry DELIM)
              <$> ((fun item => Field_process (tag_entry DELIM) (Some item))
                   <$> items))
  = tag_messages DELIM <$> items.
Proof.
  induction items as [|item items IH]; [reflexivity|].
  rewrite !fmap_cons, IH. f_equal.
  unfold Field_validate. cbn. unfold validate_tag. cbn.
  destruct item; try reflexivity. cbn [tag_messages].
  destruct (Py.str_in DELIM s); reflexivity.
Qed.

Lemma required_tag_entry_messages (items : list Py.value) :
  errors <$> (Field_validate (required_tag_entry DELIM)
              <$> ((fun item =>
                      Field_process (required_tag_entry DELIM) (Some item))
                   <$> items))
  = required_tag_messages DELIM <$> items.
Proof.
  induction items as [|item items IH]; [reflexivity|].
  rewrite !fmap_cons, IH. f_equal.
  unfold Field_validate, required_tag_messages. cbn.
  unfold DataRequired. cbn. destruct (has_data item); [|reflexivity].
  unfold validate_tag. cbn. destruct item; try reflexivity.
  cbn [tag_messages]. destruct (Py.str_in DELIM s); reflexivity.
Qed.

(** An item has no message exactly when the validator accepts it. *)
Lemma tag_messages_valid (items : list Py.value) :
  forallb (fun e => Nat.eqb (length e) 0) (tag_messages DELIM <$> items)
  = forallb (valid_tag DELIM) items.
Proof.
  induction items as [|item items IH]; [reflexivity|].
  rewrite fmap_cons. cbn [forallb]. rewrite IH. f_equal.
  destruct item; try reflexivity. cbn.
  destruct (Py.str_in DELIM s); reflexivity.
Qed.

Lemma required_tag_messages_valid (items : list Py.value) :
  forallb (fun e => Nat.eqb (length e) 0)
    (required_tag_messages DELIM <$> items)
  = forallb (fun item => has_data item && valid_tag DELIM item) items.
Proof.
  induction items as [|item items IH]; [reflexivity|].
  rewrite fmap_cons. cbn [forallb]. rewrite IH. f_equal.
  unfold required_tag_messages. destruct (has_data item); [|reflexivity].
  destruct item; try reflexivity. cbn.
  destruct (Py.str_in DELIM s); reflexivity.
Qed.

(** Binding and validating the create and edit forms on a list of tags:
    validity and the error report. *)
Lemma create_report data items :
  data !! "tags" = Some (Py.PyList items) ->
  exists bound,
    process (ApiBookmarkCreateForm DELIM) data = Py.Return bound
    /\ (validate bound).2
       = has_data (Py.get data "url") && forallb (valid_tag DELIM) items
    /\ form_errors (validate bound).1
       = url_errors (Py.get data "url")
         ++ tags_errors (tag_messages DELIM <$> items).
Proof.
  intros Htags.
  destruct (tag_entries_of_list DELIM items) as (entries & Hfl & Hok).
  pose proof Hfl as Hentries. rewrite FieldList_process_list in Hentries.
  cbn [Nat.sub replicate] in Hentries. rewrite app_nil_r in Hentries.
  injection Hentries as Hentries.
  rewrite <- Htags in Hfl.
  destruct (create_process DELIM data entries Hfl) as (bound & Hp & Hv & _).
  exists bound. split; [exact Hp|]. split; [rewrite Hv, Hok; reflexivity|].
  rewrite create_fields in Hp. cbn [process] in Hp. rewrite Hfl in Hp.
  cbn [mbind Py.outcome_bind] in Hp. injection Hp as <-.
  unfold validate. cbn [fst fmap list_fmap prod_map id snd].
  rewrite form_errors_required by reflexivity.
  rewrite !form_errors_skip by (apply plain_no_errors; reflexivity).
  rewrite form_errors_list_field.
  rewrite form_errors_skip by (apply plain_no_errors; reflexivity).
  cbv zeta. rewrite <- Hentries, tag_entry_messages.
  unfold url_errors, tags_errors, Py.get. cbn [form_errors omap list_omap].
  rewrite app_nil_r. reflexivity.
Qed.

Lemma edit_report data items :
  data !! "tags" = Some (Py.PyList items) ->
  exists bound,
    process (ApiBookmarkEditForm DELIM) data = Py.Return bound
    /\ (validate bound).2 = forallb (valid_tag DELIM) items
    /\ form_errors (validate bound).1
       = tags_errors (tag_messages DELIM <$> items).
Proof.
  intros Htags.
  destruct (tag_entries_of_list DELIM items) as (entries & Hfl & Hok).
  pose proof Hfl as Hentries. rewrite FieldList_process_list in Hentries.
  cbn [Nat.sub replicate] in Hentries. rewrite app_nil_r in Hentries.
  injection Hentries as Hentries.
  rewrite <- Htags in Hfl.
  destruct (edit_process DELIM data entries Hfl) as (bound & Hp & Hv).
  exists bound. split; [exact Hp|]. split; [rewrite Hv, Hok; reflexivity|].
  rewrite edit_fields in Hp. cbn [process] in Hp. rewrite Hfl in Hp.
  cbn [mbind Py.outcome_bind] in Hp. injection Hp as <-.
  unfold validate. cbn [fst fmap list_fmap prod_map id snd].
  rewrite !form_errors_skip by (apply plain_no_errors; reflexivity).
  rewrite form_errors_list_field.
  rewrite !form_errors_skip by (apply plain_no_errors; reflexivity).
  cbv zeta. rewrite <- Hentries, tag_entry_messages.
  unfold tags_errors. cbn [form_errors omap list_omap].
  rewrite app_nil_r. reflexivity.
Qed.

Lemma range_edit_report data items :
  data !! "tags" = Some (Py.PyList items) ->
  exists bound,
    process (ApiBookmarkRangeEditForm DELIM) data = Py.Return bound
    /\ (validate bound).2 = forallb (valid_tag DELIM) items
    /\ form_errors (validate bound).1
       = tags_errors (tag_messages DELIM <$> items).
Proof.
  intros Htags.
  destruct (tag_entries_of_list DELIM items) as (entries & Hfl & Hok).
  pose proof Hfl as Hentries. rewrite FieldList_process_list in Hentries.
  cbn [Nat.sub replicate] in Hentries. rewrite app_nil_r in Hentries.
  injection Hentries as Hentries.
  rewrite <- Htags in Hfl.
  destruct (range_edit_process DELIM data entries Hfl) as (bound & Hp & Hv).
  exists bound. split; [exact Hp|]. split; [rewrite Hv, Hok; reflexivity|].
  rewrite range_edit_fields, edit_fields in Hp. cbn [app process] in Hp.
  rewrite Hfl in Hp.
  cbn [mbind Py.outcome_bind] in Hp. injection Hp as <-.
  unfold validate. cbn [fst fmap list_fmap prod_map id snd].
  rewrite !form_errors_skip by (apply plain_no_errors; reflexivity).
  rewrite form_errors_list_field.
  rewrite !form_errors_skip by (apply plain_no_errors; reflexivity).
  cbv zeta. rewrite <- Hentries, tag_entry_messages.
  unfold tags_errors. cbn [form_errors omap list_omap].
  rewrite app_nil_r. reflexivity.
Qed.

(** How a call on a list of tags ends, from the validity bit and the
    error report of the bound form. *)
Lemma list_tags_outcome self data items bound :
  data !! "tags" = Some (Py.PyList items) ->
  process (cls self) data = Py.Return bound ->
  ((validate bound).2 = true ->
   forallb (valid_tag DELIM) items = true ->
   exists l,
     items = Py.PyStr <$> l
     /\ observe (process_data self data)
        = Py.Return (Some (parse_tags [String.concat DELIM l]), tags_in self,
                     (None, None)))
  /\ ((validate bound).2 = false ->
      observe (process_data self data)
      = Py.Return (tags_str self, tags_in self,
                   (Some Response.INPUT_NOT_VALID,
                    Some (mkErrorData (form_errors (validate bound).1))))).
Proof.
  intros Htags Hp. pose proof (get_entry _ _ _ Htags) as Hget.
  assert (guard (Py.get data "tags") = false) as Hg
    by (rewrite Hget; cbn; apply andb_false_r).
  rewrite (process_data_bound DELIM parse_tags self data bound Hg Hp).
  split.
  - intros -> Hvalid. destruct (valid_tags_strs DELIM items Hvalid) as (l & ->).
    exists l. split; [reflexivity|].
    rewrite Hget. cbn [Py.is_none]. rewrite join_strs. reflexivity.
  - intros ->. reflexivity.
Qed.

(** X5: a list of tags on the edit forms.  The call succeeds exactly when
    every item is a string without the delimiter, and then [tags_str] is
    the helper's string for the items joined in order.  Otherwise it
    returns the input-validation error whose description has the one key
    [tags], with one message list per item, in the order of the items:
    empty for an accepted item, the string message for a non-string, the
    delimiter message for a string with the delimiter; [tags_str] is left
    as it was. *)
Theorem edit_tags_report self data items :
  cls self = ApiBookmarkEditForm DELIM
  \/ cls self = ApiBookmarkRangeEditForm DELIM ->
  data !! "tags" = Some (Py.PyList items) ->
  (forallb (valid_tag DELIM) items = true ->
   exists l,
     items = Py.PyStr <$> l
     /\ observe (process_data self data)
        = Py.Return (Some (parse_tags [String.concat DELIM l]), tags_in self,
                     (None, None)))
  /\ (forallb (valid_tag DELIM) items = false ->
      observe (process_data self data)
      = Py.Return (tags_str self, tags_in self,
                   (Some Response.INPUT_NOT_VALID,
                    Some (mkErrorData
                            [("tags",
                              EntryMessages
                                (tag_messages DELIM <$> items))])))).
Proof.
  intros Hcls Htags.
  assert (exists bound,
            process (cls self) data = Py.Return bound
            /\ (validate bound).2 = forallb (valid_tag DELIM) items
            /\ form_errors (validate bound).1
               = tags_errors (tag_messages DELIM <$> items))
    as (bound & Hp & Hv & Herr).
  { destruct Hcls as [-> | ->];
      [apply edit_report | apply range_edit_report]; exact Htags. }
  destruct (list_tags_outcome self data items bound Htags Hp) as [Hok Hbad].
  split.
  - intros Hvalid. apply Hok; congruence.
  - intros Hvalid. rewrite Hbad, Herr by congruence.
    unfold tags_errors. rewrite tag_messages_valid, Hvalid. reflexivity.
Qed.

(** X6: a list of tags on the create form.  The call succeeds exactly
    when [url] passes [DataRequired] and every item is a string without
    the delimiter.  Otherwise the description lists [url] first, with the
    required message, when [url] fails, and then [tags], with one message
    list per item, when some item is rejected; nothing else is listed and
    [tags_str] is left as it was. *)
Theorem create_tags_report self data items :
  cls self = ApiBookmarkCreateForm DELIM ->
  data !! "tags" = Some (Py.PyList items) ->
  (has_data (Py.get data "url") && forallb (valid_tag DELIM) items = true ->
   exists l,
     items = Py.PyStr <$> l
     /\ observe (process_data self data)
        = Py.Return (Some (parse_tags [String.concat DELIM l]), tags_in self,
                     (None, None)))
  /\ (has_data (Py.get data "url") && forallb (valid_tag DELIM) items = false ->
      observe (process_data self data)
      = Py.Return (tags_str self, tags_in self,
                   (Some Response.INPUT_NOT_VALID,
                    Some (mkErrorData
                            (url_errors (Py.get data "url")
                             ++ tags_errors (tag_messages DELIM <$> items)))))).
Proof.
  intros Hcls Htags.
  destruct (create_report data items Htags) as (bound & Hp & Hv & Herr).
  rewrite <- Hcls in Hp.
  destruct (list_tags_outcome self data items bound Htags Hp) as [Hok Hbad].
  split.
  - intros Hvalid. apply Hok; [congruence|].
    apply andb_true_iff in Hvalid. tauto.
  - intros Hvalid. rewrite Hbad, Herr by congruence. reflexivity.
Qed.

(** X7: a list of tags on the base form, where every entry is required.
    An empty list fails like an omitted entry, with the required message
    on the one default entry.  A non-empty list succeeds exactly when
    every item passes [DataRequired] and is a string without the
    delimiter; otherwise each item gets one message list, in order: the
    required message alone for a falsy or blank item, else the messages of
    the tag validator. *)
Theorem base_tags_report self data items :
  cls self = ApiTagForm DELIM ->
  data !! "tags" = Some (Py.PyList items) ->
  (items = [] ->
   observe (process_data self data)
   = Py.Return (tags_str self, tags_in self,
                (Some Response.INPUT_NOT_VALID,
                 Some (mkErrorData
                         [("tags", EntryMessages [[required_message]])]))))
  /\ (items <> [] ->
      forallb (fun item => has_data item && valid_tag DELIM item) items
      = true ->
      exists l,
        items = Py.PyStr <$> l
        /\ observe (process_data self data)
           = Py.Return (Some (parse_tags [String.concat DELIM l]),
                        tags_in self, (None, None)))
  /\ (items <> [] ->
      forallb (fun item => has_data item && valid_tag DELIM item) items
      = false ->
      observe (process_data self data)
      = Py.Return (tags_str self, tags_in self,
                   (Some Response.INPUT_NOT_VALID,
                    Some (mkErrorData
                            [("tags",
                              EntryMessages
                                (required_tag_messages DELIM <$> items))])))).
Proof.
  intros Hcls Htags.
  pose proof (FieldList_process_list (required_tag_entry DELIM) 1 items) as Hfl.
  rewrite <- Htags in Hfl.
  destruct (base_process DELIM data _ Hfl) as (bound & Hp & Hv & Herr).
  rewrite <- Hcls in Hp.
  destruct (list_tags_outcome self data items bound Htags Hp) as [Hok Hbad].
  split; [|split].
  - intros ->. rewrite Hbad by (rewrite Hv; reflexivity).
    rewrite Herr by reflexivity. reflexivity.
  - intros Hne Hvalid.
    assert (1 - length items = 0) as Hlen
      by (destruct items; [congruence|reflexivity]).
    rewrite Hlen in Hv. cbn [replicate] in Hv. rewrite app_nil_r in Hv.
    apply Hok.
    + rewrite Hv. unfold entry_ok.
      rewrite <- Hvalid, <- required_tag_messages_valid,
        <- required_tag_entry_messages.
      clear. induction items as [|item items IH]; [reflexivity|].
      rewrite !fmap_cons. cbn [forallb]. rewrite IH. reflexivity.
    + clear -Hvalid. induction items as [|item items IH]; [reflexivity|].
      cbn [forallb] in *. apply andb_true_iff in Hvalid.
      destruct Hvalid as [Hitem Hvalid]. apply andb_true_iff in Hitem.
      rewrite (proj2 Hitem), IH by exact Hvalid. reflexivity.
  - intros Hne Hvalid.
    assert (1 - length items = 0) as Hlen
      by (destruct items; [congruence|reflexivity]).
    rewrite Hlen in Hv, Herr. cbn [replicate] in Hv, Herr.
    rewrite app_nil_r in Hv, Herr.
    assert (forallb (entry_ok (required_tag_entry DELIM))
              ((fun item =>
                  Field_process (required_tag_entry DELIM) (Some item))
               <$> items) = false) as Hno.
    { unfold entry_ok.
      rewrite <- Hvalid, <- required_tag_messages_valid,
        <- required_tag_entry_messages.
      clear. induction items as [|item items IH]; [reflexivity|].
      rewrite !fmap_cons. cbn [forallb]. rewrite IH. reflexivity. }
    rewrite Hbad, (Herr Hno), required_tag_entry_messages by congruence.
    reflexivity.
Qed.

(** ** What a success guarantees *)

(** The required entries bound from items validate exactly when every
    item has data and is accepted by the tag validator. *)
Lemma required_entries_ok (items : list Py.value) :
  forallb (entry_ok (required_tag_entry DELIM))
    ((fun item => Field_process (required_tag_entry DELIM) (Some item))
     <$> items)
  = forallb (fun item => has_data item && valid_tag DELIM item) items.
Proof.
  rewrite <- required_tag_messages_valid, <- required_tag_entry_messages.
  unfold entry_ok. induction items as [|item items IH]; [reflexivity|].
  rewrite !fmap_cons. cbn [forallb]. rewrite IH. reflexivity.
Qed.

(** X14: a call on a list of tags that succeeds on an API form has let
    only valid tags through: every item is a string without the
    delimiter, [tags_str] is the helper's string for their join in the
    order given, on the create form [url] has passed [DataRequired], and
    on the base form the list is not empty and every tag has passed
    [DataRequired]. *)
Theorem success_means_valid self (data : gmap string Py.value) items ts ti :
  cls self = ApiTagForm DELIM
  \/ cls self = ApiBookmarkCreateForm DELIM
  \/ cls self = ApiBookmarkEditForm DELIM
  \/ cls self = ApiBookmarkRangeEditForm DELIM ->
  data !! "tags" = Some (Py.PyList items) ->
  observe (process_data self data) = Py.Return (ts, ti, (None, None)) ->
  exists l,
    items = Py.PyStr <$> l
    /\ Forall (fun tag => Py.str_in DELIM tag = false) l
    /\ ts = Some (parse_tags [String.concat DELIM l])
    /\ (cls self = ApiBookmarkCreateForm DELIM ->
        has_data (Py.get data "url") = true)
    /\ (cls self = ApiTagForm DELIM ->
        l <> [] /\ Forall (fun tag => has_data (Py.PyStr tag) = true) l).
Proof.
  intros Hcls Htags Hobs.
  assert (exists bound,
            process (cls self) data = Py.Return bound
            /\ ((validate bound).2 = true ->
                forallb (valid_tag DELIM) items = true
                /\ (cls self = ApiBookmarkCreateForm DELIM ->
                    has_data (Py.get data "url") = true)
                /\ (cls self = ApiTagForm DELIM ->
                    items <> []
                    /\ forallb (fun item => has_data item) items = true)))
    as (bound & Hp & Hvalid).
  { destruct Hcls as [Hcls | [Hcls | [Hcls | Hcls]]].
    - pose proof (FieldList_process_list (required_tag_entry DELIM) 1 items)
        as Hfl.
      rewrite <- Htags in Hfl.
      destruct (base_process DELIM data _ Hfl) as (bound & Hp & Hv & _).
      rewrite <- Hcls in Hp. exists bound. split; [exact Hp|].
      rewrite Hv, forallb_app, required_entries_ok. intros Hok.
      apply andb_true_iff in Hok. destruct Hok as [Hitems Hpad].
      assert (items <> []) as Hne
        by (intros ->; cbn in Hpad; discriminate).
      assert (forallb (valid_tag DELIM) items = true
              /\ forallb (fun item => has_data item) items = true)
        as [Hv1 Hv2].
      { clear -Hitems. induction items as [|item items IH]; [auto|].
        cbn [forallb] in *. apply andb_true_iff in Hitems.
        destruct Hitems as [Hitem Hitems]. apply andb_true_iff in Hitem.
        destruct (IH Hitems) as [-> ->]. destruct Hitem as [-> ->]. auto. }
      split; [exact Hv1|]. split; [|auto].
      rewrite Hcls. intros Hbad. apply (f_equal length) in Hbad.
      cbn in Hbad. discriminate.
    - destruct (create_report data items Htags) as (bound & Hp & Hv & _).
      rewrite <- Hcls in Hp. exists bound. split; [exact Hp|].
      rewrite Hv. intros Hok. apply andb_true_iff in Hok.
      split; [tauto|]. split; [tauto|].
      rewrite Hcls. intros Hbad. apply (f_equal length) in Hbad.
      cbn in Hbad. discriminate.
    - destruct (edit_report data items Htags) as (bound & Hp & Hv & _).
      rewrite <- Hcls in Hp. exists bound. split; [exact Hp|].
      rewrite Hv. intros Hok. split; [exact Hok|].
      rewrite Hcls, edit_fields, create_fields.
      split; intros Hbad; discriminate.
    - destruct (range_edit_report data items Htags) as (bound & Hp & Hv & _).
      rewrite <- Hcls in Hp. exists bound. split; [exact Hp|].
      rewrite Hv. intros Hok. split; [exact Hok|].
      rewrite Hcls. split; intros Hbad; apply (f_equal length) in Hbad;
        cbn in Hbad; discriminate. }
  destruct (list_tags_outcome self data items bound Htags Hp) as [Hok Hbad].
  destruct (validate bound).2.
  - destruct (Hvalid eq_refl) as (Hitems & Hurl & Hbase).
    destruct (Hok eq_refl Hitems) as (l & -> & Hsucc).
    rewrite Hsucc in Hobs. injection Hobs as <- _.
    exists l. split; [reflexivity|].
    split; [|split; [reflexivity|split; [exact Hurl|]]].
    + clear -Hitems. induction l as [|t l IH]; [constructor|].
      rewrite fmap_cons in Hitems. cbn [forallb valid_tag] in Hitems.
      apply andb_true_iff in Hitems. destruct Hitems as [Ht Hl].
      apply negb_true_iff in Ht. constructor; auto.
    + intros Hc. destruct (Hbase Hc) as [Hne Hdata].
      split; [intros ->; apply Hne; reflexivity|].
      clear -Hdata. induction l as [|t l IH]; [constructor|].
      rewrite fmap_cons in Hdata. cbn [forallb] in Hdata.
      apply andb_true_iff in Hdata. destruct Hdata as [Ht Hl].
      constructor; auto.
  - rewrite (Hbad eq_refl) in Hobs. discriminate.
Qed.

(** ** Values of [tags] the forms do not tell apart *)

(** On the API forms two mappings that agree off [tags] and bind the same
    tag entries bind the same fields. *)
Lemma process_agree self (data1 data2 : gmap string Py.value) :
  cls self = ApiTagForm DELIM
  \/ cls self = ApiBookmarkCreateForm DELIM
  \/ cls self = ApiBookmarkEditForm DELIM
  \/ cls self = ApiBookmarkRangeEditForm DELIM ->
  (forall key, key <> "tags" -> data1 !! key = data2 !! key) ->
  (forall u m,
     FieldList_process u m (data1 !! "tags")
     = FieldList_process u m (data2 !! "tags")) ->
  process (cls self) data1 = process (cls self) data2.
Proof.
  intros Hcls Hagree Hfl.
  destruct Hcls as [-> | [-> | [-> | ->]]];
    [unfold ApiTagForm
    |rewrite create_fields
    |rewrite edit_fields
    |rewrite range_edit_fields, edit_fields; cbn [app]];
    cbn [process]; rewrite Hfl; rewrite ?Hagree by discriminate;
    reflexivity.
Qed.

Lemma process_data_agree self (data1 data2 : gmap string Py.value) :
  process (cls self) data1 = process (cls self) data2 ->
  guard (Py.get data1 "tags") = guard (Py.get data2 "tags") ->
  new_tags_str (Py.get data1 "tags") = new_tags_str (Py.get data2 "tags") ->
  process_data self data1 = process_data self data2.
Proof.
  intros Hp Hg Hts. rewrite !process_data_eq. cbv zeta.
  rewrite Hp, Hg, Hts.
  destruct (guard (Py.get data2 "tags")); reflexivity.
Qed.

(** X8: on the API forms a [tags] entry of [None] is an omitted entry:
    two mappings that differ only in that end the call alike, with the
    same pair, the same bound fields and the same attributes. *)
Theorem null_tags_is_omitted self (data1 data2 : gmap string Py.value) :
  cls self = ApiTagForm DELIM
  \/ cls self = ApiBookmarkCreateForm DELIM
  \/ cls self = ApiBookmarkEditForm DELIM
  \/ cls self = ApiBookmarkRangeEditForm DELIM ->
  (forall key, key <> "tags" -> data1 !! key = data2 !! key) ->
  data1 !! "tags" = Some Py.PyNone ->
  data2 !! "tags" = None ->
  process_data self data1 = process_data self data2
  /\ range_process_data self data1 = range_process_data self data2.
Proof.
  intros Hcls Hagree H1 H2.
  assert (process_data self data1 = process_data self data2) as Hsame.
  { apply process_data_agree.
    - apply process_agree; [exact Hcls|exact Hagree|].
      intros u m. rewrite H1, H2. reflexivity.
    - unfold Py.get. rewrite H1, H2. reflexivity.
    - unfold Py.get. rewrite H1, H2. reflexivity. }
  split; [exact Hsame|].
  unfold ApiBookmarkRangeEditForm_process_data. rewrite Hsame. reflexivity.
Qed.

(** X10: on the API forms the empty string, the empty list and the empty
    mapping are one value of [tags]: each passes the guard, binds no
    submitted entry and joins to the empty string, so two mappings that
    differ only in which of them [tags] holds end the call alike. *)
Theorem empty_tags_alike self (data1 data2 : gmap string Py.value) v1 v2 :
  cls self = ApiTagForm DELIM
  \/ cls self = ApiBookmarkCreateForm DELIM
  \/ cls self = ApiBookmarkEditForm DELIM
  \/ cls self = ApiBookmarkRangeEditForm DELIM ->
  (forall key, key <> "tags" -> data1 !! key = data2 !! key) ->
  data1 !! "tags" = Some v1 ->
  data2 !! "tags" = Some v2 ->
  v1 = Py.PyStr "" \/ v1 = Py.PyList [] \/ v1 = Py.PyDict [] ->
  v2 = Py.PyStr "" \/ v2 = Py.PyList [] \/ v2 = Py.PyDict [] ->
  process_data self data1 = process_data self data2
  /\ range_process_data self data1 = range_process_data self data2.
Proof.
  intros Hcls Hagree H1 H2 Hv1 Hv2.
  assert (process_data self data1 = process_data self data2) as Hsame.
  { apply process_data_agree.
    - apply process_agree; [exact Hcls|exact Hagree|].
      intros u m. rewrite H1, H2.
      destruct Hv1 as [-> | [-> | ->]], Hv2 as [-> | [-> | ->]]; reflexivity.
    - unfold Py.get. rewrite H1, H2.
      destruct Hv1 as [-> | [-> | ->]], Hv2 as [-> | [-> | ->]]; reflexivity.
    - unfold Py.get. rewrite H1, H2.
      destruct Hv1 as [-> | [-> | ->]], Hv2 as [-> | [-> | ->]]; reflexivity. }
  split; [exact Hsame|].
  unfold ApiBookmarkRangeEditForm_process_data. rewrite Hsame. reflexivity.
Qed.

(** ** The values the bound fields hold *)

(** Validation reports on a tag entry and leaves its value alone. *)
Lemma tag_entries_data (items : list Py.value) :
  data <$> (Field_validate (tag_entry DELIM)
            <$> ((fun item => Field_process (tag_entry DELIM) (Some item))
                 <$> items))
  = items.
Proof.
  induction items as [|item items IH]; [reflexivity|].
  rewrite !fmap_cons, IH. f_equal.
  unfold Field_validate. cbn. unfold validate_tag. cbn.
  destruct item; try reflexivity.
  destruct (Py.str_in DELIM s); reflexivity.
Qed.

(** X11: what the fields of a create or edit form hold once a call has
    bound them, whether validation passed or not: [url], [title] and
    [description] hold the submitted values, [None] when omitted; [fetch]
    holds the truth value of the submitted value, [True] when omitted;
    [tags] holds the submitted list, the empty list when omitted. *)
Theorem bound_values self (data : gmap string Py.value) self1 r :
  cls self = ApiBookmarkCreateForm DELIM
  \/ cls self = ApiBookmarkEditForm DELIM
  \/ cls self = ApiBookmarkRangeEditForm DELIM ->
  process_data self data = Py.Return (self1, r) ->
  r <> type_mismatch ->
  field_data self1 "url" = Py.Return (Py.get data "url")
  /\ field_data self1 "title" = Py.Return (Py.get data "title")
  /\ field_data self1 "description" = Py.Return (Py.get data "description")
  /\ field_data self1 "fetch"
     = Py.Return
         (Py.PyBool (Py.truthy (default (Py.PyBool true) (data !! "fetch"))))
  /\ (forall items,
        data !! "tags" = Some (Py.PyList items) ->
        field_data self1 "tags" = Py.Return (Py.PyList items))
  /\ (data !! "tags" = None ->
      field_data self1 "tags" = Py.Return (Py.PyList [])).
Proof.
  intros Hcls Hret Hr. apply process_data_returns in Hret.
  destruct Hret as [(_ & _ & ->)|(_ & bound & Hp & Hf & _)]; [congruence|].
  unfold field_data. rewrite Hf, !validate_bound_field.
  assert (forall u m,
            declared (cls self) "tags" = Some (FieldList u m) ->
            u = tag_entry DELIM /\ m = 0) as Htag.
  { intros u m. destruct Hcls as [-> | [-> | ->]]; intros [= <- <-]; auto. }
  assert (exists u m, declared (cls self) "tags" = Some (FieldList u m))
    as (u & m & Hdecl)
    by (destruct Hcls as [-> | [-> | ->]]; eexists _, _; reflexivity).
  destruct (Htag u m Hdecl) as [-> ->].
  destruct (process_list _ _ _ "tags" _ _ Hp Hdecl) as (entries & Hfl & ->).
  repeat split.
  - destruct Hcls as [Hcls | [Hcls | Hcls]]; rewrite Hcls in Hp;
      bound_plain Hp; [|reflexivity..].
    cbn. unfold Field_validate. cbn. unfold DataRequired.
    destruct (has_data _); reflexivity.
  - destruct Hcls as [Hcls | [Hcls | Hcls]]; rewrite Hcls in Hp;
      bound_plain Hp; reflexivity.
  - destruct Hcls as [Hcls | [Hcls | Hcls]]; rewrite Hcls in Hp;
      bound_plain Hp; reflexivity.
  - destruct Hcls as [Hcls | [Hcls | Hcls]]; rewrite Hcls in Hp;
      bound_plain Hp; reflexivity.
  - intros items Htags. rewrite Htags, FieldList_process_list in Hfl.
    injection Hfl as <-. cbn [Nat.sub replicate]. rewrite app_nil_r.
    cbn [fmap option_fmap option_map validate_bound FieldList_validate
         bound_data].
    rewrite tag_entries_data. reflexivity.
  - intros Htags. rewrite Htags, FieldList_process_unset in Hfl.
    injection Hfl as <-. reflexivity.
Qed.

(** ** Joined tags can be told apart *)

(** A string without the character [c]. *)
Lemma char_free_cons (c x : ascii) (t : string) :
  Py.str_in (String c "") (String x t) = false <->
  x <> c /\ Py.str_in (String c "") t = false.
Proof.
  cbn [Py.str_in String.prefix].
  destruct (ascii_dec c x) as [->|Hne].
  - destruct t; cbn; split; try discriminate; intros [Hx _]; congruence.
  - cbn. split; [intros H; split; congruence | tauto].
Qed.

Lemma char_free_no_split (c : ascii) (t a b : string) :
  Py.str_in (String c "") t = false -> t <> a +:+ String c b.
Proof.
  intros Hfree ->.
  assert (Py.str_in (String c "") (a +:+ String c b) = true) as Hin
    by (apply str_in_spec; exists a, b; reflexivity).
  congruence.
Qed.

(** Two strings without [c], each followed by [c]: the split is unique. *)
Lemma char_free_split_unique (c : ascii) (t1 t2 r1 r2 : string) :
  Py.str_in (String c "") t1 = false ->
  Py.str_in (String c "") t2 = false ->
  t1 +:+ String c r1 = t2 +:+ String c r2 ->
  t1 = t2 /\ r1 = r2.
Proof.
  revert t2. induction t1 as [|x t1 IH]; intros [|y t2] H1 H2 Heq.
  - injection Heq as ->. auto.
  - rewrite append_nil, append_cons in Heq. injection Heq as <- _.
    apply char_free_cons in H2. tauto.
  - rewrite append_nil, append_cons in Heq. injection Heq as -> _.
    apply char_free_cons in H1. tauto.
  - rewrite !append_cons in Heq. injection Heq as -> Heq.
    apply char_free_cons in H1, H2.
    destruct (IH t2 (proj2 H1) (proj2 H2) Heq) as [-> ->]. auto.
Qed.

Lemma concat_cons_cons (c : ascii) (x y : string) (l : list string) :
  String.concat (String c "") (x :: y :: l)
  = x +:+ String c (String.concat (String c "") (y :: l)).
Proof. reflexivity. Qed.

(** Non-empty lists of strings without [c] with the same join are the
    same list. *)
Lemma concat_char_free_inj (c : ascii) (l1 l2 : list string) :
  l1 <> [] -> l2 <> [] ->
  Forall (fun t => Py.str_in (String c "") t = false) l1 ->
  Forall (fun t => Py.str_in (String c "") t = false) l2 ->
  String.concat (String c "") l1 = String.concat (String c "") l2 ->
  l1 = l2.
Proof.
  revert l2. induction l1 as [|x l1 IH]; intros l2 Hne1 Hne2 H1 H2 Heq;
    [congruence|].
  destruct l2 as [|y l2]; [congruence|].
  apply Forall_cons in H1, H2. destruct H1 as [Hx H1], H2 as [Hy H2].
  destruct l1 as [|x' l1], l2 as [|y' l2].
  - cbn in Heq. congruence.
  - rewrite concat_cons_cons in Heq. cbn [String.concat] in Heq.
    destruct (char_free_no_split c x _ _ Hx Heq).
  - rewrite concat_cons_cons in Heq. cbn [String.concat] in Heq.
    symmetry in Heq. destruct (char_free_no_split c y _ _ Hy Heq).
  - rewrite !concat_cons_cons in Heq.
    destruct (char_free_split_unique c _ _ _ _ Hx Hy Heq) as [-> Htail].
    f_equal. apply IH; [discriminate|discriminate|assumption..].
Qed.

(** X12: with a one-character delimiter the joined string tells valid tag
    lists apart.  Two lists of items that [validate_tag] accepts and that
    join to the same string are the same list, except that the empty list
    and the list of one empty tag both join to the empty string. *)
Theorem join_unambiguous (c : ascii) (items1 items2 : list Py.value) :
  DELIM = String c "" ->
  forallb (valid_tag DELIM) items1 = true ->
  forallb (valid_tag DELIM) items2 = true ->
  Py.join DELIM (Py.PyList items1) = Py.join DELIM (Py.PyList items2) ->
  items1 = items2
  \/ (items1 = [] /\ items2 = [Py.PyStr ""])
  \/ (items1 = [Py.PyStr ""] /\ items2 = []).
Proof.
  intros Hd Hv1 Hv2 Hjoin.
  assert (forall items,
            forallb (valid_tag DELIM) items = true ->
            exists l,
              items = Py.PyStr <$> l
              /\ Forall (fun t => Py.str_in (String c "") t = false) l)
    as Hstrs.
  { intros items. rewrite Hd. clear.
    induction items as [|item items IH]; cbn [forallb]; intros Hall.
    - exists []. split; [reflexivity|constructor].
    - apply andb_true_iff in Hall. destruct Hall as [Hitem Hall].
      destruct (IH Hall) as (l & -> & Hl).
      destruct item; try discriminate. exists (s :: l).
      split; [reflexivity|]. constructor; [|exact Hl].
      cbn in Hitem. apply negb_true_iff in Hitem. exact Hitem. }
  destruct (Hstrs items1 Hv1) as (l1 & -> & H1).
  destruct (Hstrs items2 Hv2) as (l2 & -> & H2).
  rewrite !join_strs, Hd in Hjoin. injection Hjoin as Hjoin.
  assert (forall l,
            Forall (fun t => Py.str_in (String c "") t = false) l ->
            l <> [] -> String.concat (String c "") l = "" -> l = [""])
    as Hempty.
  { intros [|t [|t' l]] _ Hne Hcat; [congruence| |].
    - cbn in Hcat. congruence.
    - rewrite concat_cons_cons in Hcat. destruct t; discriminate. }
  destruct l1 as [|t1 l1], l2 as [|t2 l2].
  - left. reflexivity.
  - right. left. split; [reflexivity|].
    rewrite (Hempty (t2 :: l2) H2); [reflexivity|discriminate|].
    symmetry. exact Hjoin.
  - right. right. split; [|reflexivity].
    rewrite (Hempty (t1 :: l1) H1); [reflexivity|discriminate|exact Hjoin].
  - left. f_equal.
    apply (concat_char_free_inj c); [discriminate|discriminate|assumption..].
Qed.

End MoreApiForms.

(** * The home form *)

Section HomeForm.

(** Binding a class made of two runs of declarations binds the first run,
    then the second. *)
Lemma process_app (cls1 cls2 : FormClass) kwargs :
  process (cls1 ++ cls2) kwargs
  = (bound1 ← process cls1 kwargs;
     bound2 ← process cls2 kwargs;
     Py.Return (bound1 ++ bound2)).
Proof.
  induction cls1 as [|[name [u|u m]] cls1 IH]; cbn [app process].
  - cbn [mbind Py.outcome_bind]. destruct (process cls2 kwargs); reflexivity.
  - rewrite IH. destruct (process cls1 kwargs) as [b1|e]; [|reflexivity].
    cbn [mbind Py.outcome_bind].
    destruct (process cls2 kwargs); reflexivity.
  - destruct (FieldList_process u m (kwargs !! name)); [|reflexivity].
    cbn [mbind Py.outcome_bind]. rewrite IH.
    destruct (process cls1 kwargs) as [b1|e]; [|reflexivity].
    cbn [mbind Py.outcome_bind].
    destruct (process cls2 kwargs); reflexivity.
Qed.

(** X13: [HomeForm] is the search form with one more field.  Binding it
    binds the search form's fields, in the same order and with the same
    values (so the same toggle defaults and at least one keyword entry),
    and then [keyword], which holds the submitted value, [None] when there
    is none; it raises exactly when binding the search form does. *)
Theorem home_form_extends_search kwargs :
  process HomeForm kwargs
  = (bound ← process SearchBookmarksForm kwargs;
     Py.Return
       (bound
        ++ [("keyword",
             Bound (mkUnbound StringField (Some "Keyword") None [] [] Py.PyNone)
               (mkField (Py.get kwargs "keyword") None [] []))])).
Proof.
  change HomeForm
    with (SearchBookmarksForm
          ++ [("keyword",
               Plain (mkUnbound StringField (Some "Keyword") None [] []
                        Py.PyNone))]).
  rewrite process_app. reflexivity.
Qed.

End HomeForm.

(** * The further properties at sample requests *)

(** X1 at a tag with the delimiter on the edit form. *)
Lemma process_data_contract_witness :
  exists self1 r,
    ApiTagForm_process_data Buku.DELIM Buku.parse_tags
      (new (ApiBookmarkEditForm Buku.DELIM))
      {[ "tags" := Py.PyList [Py.PyStr "a,b"] ]}
    = Py.Return (self1, r)
    /\ cls self1 = ApiBookmarkEditForm Buku.DELIM
    /\ tags_in self1 = None
    /\ (r = (None, None)
        \/ exists detail,
             r = (Some Response.INPUT_NOT_VALID, Some detail)
             /\ tags_str self1 = None).
Proof.
  assert (exists self1 r,
            ApiTagForm_process_data Buku.DELIM Buku.parse_tags
              (new (ApiBookmarkEditForm Buku.DELIM))
              {[ "tags" := Py.PyList [Py.PyStr "a,b"] ]}
            = Py.Return (self1, r)) as (self1 & r & Hret)
    by (eexists _, _; vm_compute; reflexivity).
  exists self1, r. split; [exact Hret|].
  exact (process_data_contract _ _ _ _ _ _ Hret).
Defined.


(** X3 at two tags on the create form. *)
Lemma process_data_idempotent_witness :
  exists self1 r,
    ApiTagForm_process_data Buku.DELIM Buku.parse_tags
      (new (ApiBookmarkCreateForm Buku.DELIM))
      {[ "url" := Py.PyStr "http://example.com";
         "tags" := Py.PyList [Py.PyStr "a"; Py.PyStr "b"] ]}
    = Py.Return (self1, r)
    /\ ApiTagForm_process_data Buku.DELIM Buku.parse_tags self1
         {[ "url" := Py.PyStr "http://example.com";
            "tags" := Py.PyList [Py.PyStr "a"; Py.PyStr "b"] ]}
       = Py.Return (self1, r).
Proof.
  assert (exists self1 r,
            ApiTagForm_process_data Buku.DELIM Buku.parse_tags
              (new (ApiBookmarkCreateForm Buku.DELIM))
              {[ "url" := Py.PyStr "http://example.com";
                 "tags" := Py.PyList [Py.PyStr "a"; Py.PyStr "b"] ]}
            = Py.Return (self1, r)) as (self1 & r & Hret)
    by (eexists _, _; vm_compute; reflexivity).
  exists self1, r. split; [exact Hret|].
  exact (process_data_idempotent _ _ _ _ _ _ Hret).
Defined.

(** X4 at two tags to remove on the range-edit form. *)
Lemma range_edit_idempotent_witness :
  exists self2 r,
    ApiBookmarkRangeEditForm_process_data Buku.DELIM Buku.parse_tags
      (new (ApiBookmarkRangeEditForm Buku.DELIM))
      {[ "del_tags" := Py.PyBool true;
         "tags" := Py.PyList [Py.PyStr "a"; Py.PyStr "b"] ]}
    = Py.Return (self2, r)
    /\ ApiBookmarkRangeEditForm_process_data Buku.DELIM Buku.parse_tags self2
         {[ "del_tags" := Py.PyBool true;
            "tags" := Py.PyList [Py.PyStr "a"; Py.PyStr "b"] ]}
       = Py.Return (self2, r).
Proof.
  assert (exists self2 r,
            ApiBookmarkRangeEditForm_process_data Buku.DELIM Buku.parse_tags
              (new (ApiBookmarkRangeEditForm Buku.DELIM))
              {[ "del_tags" := Py.PyBool true;
                 "tags" := Py.PyList [Py.PyStr "a"; Py.PyStr "b"] ]}
            = Py.Return (self2, r)) as (self2 & r & Hret)
    by (eexists _, _; vm_compute; reflexivity).
  exists self2, r. split; [exact Hret|].
  exact (range_edit_idempotent _ _ _ _ _ _ Hret).
Defined.

(** X9 at two tags to add on the range-edit form. *)
Lemma range_edit_instruction_witness :
  exists self2 r,
    ApiBookmarkRangeEditForm_process_data Buku.DELIM Buku.parse_tags
      (new (ApiBookmarkRangeEditForm Buku.DELIM))
      {[ "tags" := Py.PyList [Py.PyStr "a"; Py.PyStr "b"] ]}
    = Py.Return (self2, r)
    /\ match tags_str self2 with
       | Some s =>
           tags_in self2 = Some ("-" +:+ s) \/ tags_in self2 = Some ("+" +:+ s)
       | None => tags_in self2 = None
       end.
Proof.
  assert (exists self2 r,
            ApiBookmarkRangeEditForm_process_data Buku.DELIM Buku.parse_tags
              (new (ApiBookmarkRangeEditForm Buku.DELIM))
              {[ "tags" := Py.PyList [Py.PyStr "a"; Py.PyStr "b"] ]}
            = Py.Return (self2, r)) as (self2 & r & Hret)
    by (eexists _, _; vm_compute; reflexivity).
  exists self2, r. split; [exact Hret|].
  exact (range_edit_instruction _ _ _ _ _ _ Hret).
Defined.

(** X5 at a good tag, a tag with the delimiter and a number. *)
Lemma edit_tags_report_witness :
  observe (ApiTagForm_process_data Buku.DELIM Buku.parse_tags
             (new (ApiBookmarkEditForm Buku.DELIM))
             {[ "tags" :=
                  Py.PyList [Py.PyStr "a"; Py.PyStr "b,c"; Py.PyInt 7] ]})
  = Py.Return
      (None, None,
       (Some Response.INPUT_NOT_VALID,
        Some (mkErrorData
                [("tags",
                  EntryMessages
                    (tag_messages Buku.DELIM
                     <$> [Py.PyStr "a"; Py.PyStr "b,c"; Py.PyInt 7]))]))).
Proof.
  assert (({[ "tags" := Py.PyList [Py.PyStr "a"; Py.PyStr "b,c"; Py.PyInt 7] ]}
             : gmap string Py.value) !! "tags"
          = Some (Py.PyList [Py.PyStr "a"; Py.PyStr "b,c"; Py.PyInt 7]))
    as Htags by (vm_compute; reflexivity).
  apply (proj2 (edit_tags_report Buku.DELIM Buku.parse_tags
                  (new (ApiBookmarkEditForm Buku.DELIM)) _ _
                  (or_introl eq_refl) Htags)).
  vm_compute. reflexivity.
Defined.

(** X6 at a blank [url] and a tag with the delimiter. *)
Lemma create_tags_report_witness :
  observe (ApiTagForm_process_data Buku.DELIM Buku.parse_tags
             (new (ApiBookmarkCreateForm Buku.DELIM))
             {[ "url" := Py.PyStr " "; "tags" := Py.PyList [Py.PyStr "b,c"] ]})
  = Py.Return
      (None, None,
       (Some Response.INPUT_NOT_VALID,
        Some (mkErrorData
                (url_errors (Py.PyStr " ")
                 ++ tags_errors
                      (tag_messages Buku.DELIM <$> [Py.PyStr "b,c"]))))).
Proof.
  assert (({[ "url" := Py.PyStr " "; "tags" := Py.PyList [Py.PyStr "b,c"] ]}
             : gmap string Py.value) !! "tags"
          = Some (Py.PyList [Py.PyStr "b,c"])) as Htags
    by (vm_compute; reflexivity).
  apply (proj2 (create_tags_report Buku.DELIM Buku.parse_tags
                  (new (ApiBookmarkCreateForm Buku.DELIM)) _ _
                  eq_refl Htags)).
  vm_compute. reflexivity.
Defined.

(** X7 at an empty tag and a good tag on the base form. *)
Lemma base_tags_report_witness :
  observe (ApiTagForm_process_data Buku.DELIM Buku.parse_tags
             (new (ApiTagForm Buku.DELIM))
             {[ "tags" := Py.PyList [Py.PyStr ""; Py.PyStr "a"] ]})
  = Py.Return
      (None, None,
       (Some Response.INPUT_NOT_VALID,
        Some (mkErrorData
                [("tags",
                  EntryMessages
                    (required_tag_messages Buku.DELIM
                     <$> [Py.PyStr ""; Py.PyStr "a"]))]))).
Proof.
  assert (({[ "tags" := Py.PyList [Py.PyStr ""; Py.PyStr "a"] ]}
             : gmap string Py.value) !! "tags"
          = Some (Py.PyList [Py.PyStr ""; Py.PyStr "a"]))
    as Htags by (vm_compute; reflexivity).
  apply (proj2 (proj2 (base_tags_report Buku.DELIM Buku.parse_tags
                         (new (ApiTagForm Buku.DELIM)) _ _ eq_refl Htags))).
  - discriminate.
  - vm_compute. reflexivity.
Defined.

(** X14 at two tags on the base form. *)
Lemma success_means_valid_witness :
  exists l,
    [Py.PyStr "a"; Py.PyStr "b"] = Py.PyStr <$> l
    /\ Forall (fun tag => Py.str_in Buku.DELIM tag = false) l
    /\ Some "a,b" = Some (Buku.parse_tags [String.concat Buku.DELIM l])
    /\ (cls (new (ApiTagForm Buku.DELIM)) = ApiBookmarkCreateForm Buku.DELIM ->
        has_data
          (Py.get {[ "tags" := Py.PyList [Py.PyStr "a"; Py.PyStr "b"] ]} "url")
        = true)
    /\ (cls (new (ApiTagForm Buku.DELIM)) = ApiTagForm Buku.DELIM ->
        l <> [] /\ Forall (fun tag => has_data (Py.PyStr tag) = true) l).
Proof.
  apply (success_means_valid Buku.DELIM Buku.parse_tags
           (new (ApiTagForm Buku.DELIM))
           {[ "tags" := Py.PyList [Py.PyStr "a"; Py.PyStr "b"] ]}
           [Py.PyStr "a"; Py.PyStr "b"] (Some "a,b") None).
  - left. reflexivity.
  - vm_compute. reflexivity.
  - vm_compute. reflexivity.
Defined.

(** X8 at a mapping with a title, with and without a null [tags]. *)
Lemma null_tags_is_omitted_witness :
  ApiTagForm_process_data Buku.DELIM Buku.parse_tags
    (new (ApiBookmarkEditForm Buku.DELIM))
    (<[ "tags" := Py.PyNone ]> {[ "title" := Py.PyStr "buku" ]})
  = ApiTagForm_process_data Buku.DELIM Buku.parse_tags
      (new (ApiBookmarkEditForm Buku.DELIM))
      {[ "title" := Py.PyStr "buku" ]}.
Proof.
  apply (null_tags_is_omitted Buku.DELIM Buku.parse_tags
           (new (ApiBookmarkEditForm Buku.DELIM))).
  - right. right. left. reflexivity.
  - intros key Hkey. apply lookup_insert_ne. congruence.
  - apply lookup_insert_eq.
  - vm_compute. reflexivity.
Defined.

(** X10 at an empty string and an empty list. *)
Lemma empty_tags_alike_witness :
  ApiTagForm_process_data Buku.DELIM Buku.parse_tags
    (new (ApiBookmarkEditForm Buku.DELIM))
    (<[ "tags" := Py.PyStr "" ]> {[ "title" := Py.PyStr "buku" ]})
  = ApiTagForm_process_data Buku.DELIM Buku.parse_tags
      (new (ApiBookmarkEditForm Buku.DELIM))
      (<[ "tags" := Py.PyList [] ]> {[ "title" := Py.PyStr "buku" ]}).
Proof.
  apply (empty_tags_alike Buku.DELIM Buku.parse_tags
           (new (ApiBookmarkEditForm Buku.DELIM)) _ _
           (Py.PyStr "") (Py.PyList [])).
  - right. right. left. reflexivity.
  - intros key Hkey. rewrite !lookup_insert_ne by congruence. reflexivity.
  - apply lookup_insert_eq.
  - apply lookup_insert_eq.
  - left. reflexivity.
  - right. left. reflexivity.
Defined.

(** X11 at a create request without [fetch]. *)
Lemma bound_values_witness :
  exists self1 r,
    ApiTagForm_process_data Buku.DELIM Buku.parse_tags
      (new (ApiBookmarkCreateForm Buku.DELIM))
      {[ "url" := Py.PyStr "http://example.com";
         "tags" := Py.PyList [Py.PyStr "a"] ]}
    = Py.Return (self1, r)
    /\ field_data self1 "url" = Py.Return (Py.PyStr "http://example.com")
    /\ field_data self1 "title" = Py.Return Py.PyNone
    /\ field_data self1 "fetch" = Py.Return (Py.PyBool true)
    /\ field_data self1 "tags" = Py.Return (Py.PyList [Py.PyStr "a"]).
Proof.
  assert (exists self1 r,
            ApiTagForm_process_data Buku.DELIM Buku.parse_tags
              (new (ApiBookmarkCreateForm Buku.DELIM))
              {[ "url" := Py.PyStr "http://example.com";
                 "tags" := Py.PyList [Py.PyStr "a"] ]}
            = Py.Return (self1, r) /\ r = (None, None))
    as (self1 & r & Hret & Hr)
    by (eexists _, _; split; vm_compute; reflexivity).
  exists self1, r. split; [exact Hret|].
  destruct (bound_values Buku.DELIM Buku.parse_tags
              (new (ApiBookmarkCreateForm Buku.DELIM)) _ self1 r
              (or_introl eq_refl) Hret)
    as (Hurl & Htitle & _ & Hfetch & Htags & _);
    [rewrite Hr; discriminate|].
  split; [exact Hurl|]. split; [exact Htitle|]. split; [exact Hfetch|].
  apply Htags. vm_compute. reflexivity.
Defined.

(** X12 at the empty list and the list of one empty tag. *)
Lemma join_unambiguous_witness :
  ([] : list Py.value) = [Py.PyStr ""]
  \/ (([] : list Py.value) = [] /\ [Py.PyStr ""] = [Py.PyStr ""])
  \/ (([] : list Py.value) = [Py.PyStr ""]
      /\ [Py.PyStr ""] = ([] : list Py.value)).
Proof.
  apply (join_unambiguous Buku.DELIM ","%char [] [Py.PyStr ""]);
    reflexivity.
Defined.
